(** * A shallow embedding of the vocabulary bot (users.py, bot.py)

    The development follows the two source modules:

    - [Py]      the Python built-ins the handlers call on [str];
    - the data  user records, the per-user [context.user_data] dictionary,
                the update, the remote API payloads, the events;
    - [M]       a state-and-exception monad over the [world] (the
                [UserManager] store, the session dictionaries, the wall
                clock and the trace of outbound effects);
    - users.py  [register_user], [update_user_activity], [increment_stat],
                [delete_user], [update_user_preference], [get_user_profile], ...
    - bot.py    the remote client functions, the flow handlers, the
                commands, [handle_message] and the story [generate_pdf]
                hands to the document library;
    - the theorems about the store, then those about the dispatcher, the
      flows, the menu, the commands and the rendered document. *)

From Stdlib Require Import ZArith Lia Ascii.
From stdpp Require Import base strings gmap list pretty.

Open Scope string_scope.
Open Scope Z_scope.

(** ** Python built-ins on [str] *)

Module Py.

(** [str.isspace] on the ASCII range: tab, line feed, vertical tab, form
    feed, carriage return, the four separators 0x1c-0x1f and the space. *)
Definition isspace (a : ascii) : bool :=
  let n := N_of_ascii a in
  ((9 <=? n) && (n <=? 13) || (28 <=? n) && (n <=? 32))%N.

Definition is_empty (s : string) : bool :=
  match s with EmptyString => true | String _ _ => false end.

Fixpoint lstrip (s : string) : string :=
  match s with
  | EmptyString => EmptyString
  | String a r => if isspace a then lstrip r else s
  end.

Fixpoint rstrip (s : string) : string :=
  match s with
  | EmptyString => EmptyString
  | String a r =>
      let r' := rstrip r in
      if isspace a && is_empty r' then EmptyString else String a r'
  end.

(** [s.strip()] *)
Definition strip (s : string) : string := rstrip (lstrip s).

(** [s.startswith(p)] *)
Definition startswith (s p : string) : bool := String.prefix p s.

(** [s.split()]: the maximal runs of non-blank characters, in order.
    [cur] is the run being read. *)
Fixpoint split_go (cur : string) (s : string) : list string :=
  match s with
  | EmptyString => if is_empty cur then [] else [cur]
  | String a r =>
      if isspace a
      then (if is_empty cur then split_go "" r else cur :: split_go "" r)
      else split_go (cur +:+ String a "") r
  end.

Definition split (s : string) : list string := split_go "" s.

(** [s.split(' ', 1)]: cut at the first space character, at most once. *)
Fixpoint split_space_1 (s : string) : list string :=
  match s with
  | EmptyString => [""]
  | String a r =>
      if Ascii.eqb a " "%char then [""; r]
      else match split_space_1 r with
           | h :: t => String a h :: t
           | [] => [String a ""]
           end
  end.

(** [str(n)] for an [int]. *)
Definition str (n : Z) : string := pretty n.

(** Truthiness of an optional string ([None] and [''] are falsy). *)
Definition truthy (o : option string) : bool :=
  match o with
  | Some s => negb (is_empty s)
  | None => false
  end.

(** [a or b] where [a] may be [None]. *)
Definition or_else (a : option string) (b : string) : string :=
  match a with
  | Some s => if is_empty s then b else s
  | None => b
  end.

(** ["\n".join(l)] *)
Fixpoint join_lines (l : list string) : string :=
  match l with
  | [] => ""
  | [x] => x
  | x :: r => x +:+ String "010"%char "" +:+ join_lines r
  end.

(** [s.replace(old, '')]: every occurrence of [old] is cut out, leftmost
    first and without overlap; [skip] counts the characters of a match
    still to drop. *)
Fixpoint remove_go (old : string) (skip : nat) (s : string) : string :=
  match s with
  | EmptyString => EmptyString
  | String a r =>
      match skip with
      | S k => remove_go old k r
      | O =>
          if String.prefix old s
          then remove_go old (String.length old - 1) r
          else String a (remove_go old 0 r)
      end
  end.

Definition remove (s old : string) : string :=
  if is_empty old then s else remove_go old 0 s.

End Py.

(** ** Data model *)

(** A record of [users.json]: the dictionary built by [register_user].
    Timestamps are the instants behind the ISO-8601 strings, in
    microseconds.  [stats] and [preferences] stay dictionaries: the code
    indexes them with run-time keys. *)
Record user := User {
  user_id : Z;
  username : option string;
  first_name : option string;
  last_name : option string;
  language : string;
  registered_at : Z;
  last_activity : Z;
  stats : gmap string Z;
  preferences : gmap string bool
}.

Definition set_language (l : string) (u : user) : user :=
  User (user_id u) (username u) (first_name u) (last_name u) l
       (registered_at u) (last_activity u) (stats u) (preferences u).

Definition set_last_activity (t : Z) (u : user) : user :=
  User (user_id u) (username u) (first_name u) (last_name u) (language u)
       (registered_at u) t (stats u) (preferences u).

Definition set_stats (s : gmap string Z) (u : user) : user :=
  User (user_id u) (username u) (first_name u) (last_name u) (language u)
       (registered_at u) (last_activity u) s (preferences u).

(** The five counters of a fresh record. *)
Definition stat_names : list string :=
  ["words_saved"; "hashtags_created"; "hashtags_deleted"; "pdfs_generated";
   "total_messages"].

Definition initial_stats : gmap string Z :=
  <["words_saved" := 0]> (<["hashtags_created" := 0]>
  (<["hashtags_deleted" := 0]> (<["pdfs_generated" := 0]>
  (<["total_messages" := 0]> ∅)))).

Definition initial_preferences : gmap string bool :=
  <["auto_save" := true]> (<["notifications" := true]> ∅).

(** The sender and text of an inbound message ([update.effective_user],
    [update.message.text]). *)
Record update := Update {
  eff_id : Z;
  eff_username : option string;
  eff_first_name : string;
  eff_last_name : option string;
  msg_text : string
}.

(** Remote payloads. *)
Record hashtag := Hashtag { h_name : string; h_description : string }.

Record message := Message {
  m_text : string;
  m_translation : option string;
  m_category : option string
}.

Record post_data := PostData {
  pd_text : string;
  pd_hashtags : list string;
  pd_user_id : string;
  pd_username : string;
  pd_timestamp : Z
}.

Record user_payload := UserPayload {
  up_user_id : string;
  up_username : option string;
  up_first_name : option string;
  up_last_name : option string;
  up_language : string;
  up_registered_at : Z;
  up_stats : gmap string Z
}.

Inductive request :=
| GetHashtags
| PostHashtag (name description : string)
| DeleteHashtag (name : string)
| GetMessages
| PostMessage (data : post_data)
| PostUser (data : user_payload).

(** What [requests] gives back: a response with its status code and decoded
    body, or one of the exceptions the client functions tell apart. *)
Inductive http_result (A : Type) :=
| Response (status_code : Z) (json : A)
| ConnectionError
| Timeout (msg : string)
| OtherException (msg : string).
Arguments Response {A}.
Arguments ConnectionError {A}.
Arguments Timeout {A}.
Arguments OtherException {A}.

(** What happens to the rendered file in [handle_import_list]. *)
Inductive doc_outcome := DocSent | OpenFails | SendFails | RemoveFails.

(** The environment of one handler run: the remote service, the PDF
    renderer and the document channel. *)
Record env := Env {
  api_get_hashtags : http_result (list hashtag);
  api_post_hashtag : string -> string -> http_result unit;
  api_delete_hashtag : string -> http_result unit;
  api_get_messages : http_result (list message);
  api_post_message : post_data -> http_result unit;
  api_post_user : user_payload -> http_result unit;
  pdf_result : list message -> string -> option string;
  doc_result : doc_outcome
}.

Definition keyboard := list (list string).

(** Outbound effects, in the order they happen. *)
Inductive event :=
| SaveUsers (snapshot : gmap string user)
| Http (r : request)
| ReplyText (to : Z) (text : string) (reply_markup : option keyboard)
| ReplyDocument (to : Z) (path filename caption : string)
| GeneratePdf (words : list message) (category_name : string)
| RemoveFile (path : string).

(** The process state: [user_manager.users], the per-user
    [context.user_data] dictionaries, the number of wall-clock readings
    taken so far and the trace. *)
Record world := World {
  users : gmap string user;
  sessions : gmap Z (gmap string bool);
  reads : nat;
  trace : list event
}.

(** The states of the conversation (spec 4.2). *)
Inductive state :=
| Idle
| AwaitingHashtagCreate
| AwaitingHashtagDelete
| AwaitingCategoryImport
| AwaitingLanguageChoice.

(** ** The monad *)

Inductive exn := KeyError (key : string).

Inductive result (A : Type) :=
| Ok (a : A)
| Raise (e : exn).
Arguments Ok {A}.
Arguments Raise {A}.

Definition M (A : Type) : Type := world -> result A * world.

Definition ret {A} (a : A) : M A := fun w => (Ok a, w).

Definition bind {A B} (m : M A) (k : A -> M B) : M B :=
  fun w => match m w with
           | (Ok a, w') => k a w'
           | (Raise e, w') => (Raise e, w')
           end.

Definition raise {A} (e : exn) : M A := fun w => (Raise e, w).

Declare Scope m_scope.
Delimit Scope m_scope with m.
Notation "x <- c1 ;; c2" := (bind c1 (fun x => c2))
  (at level 100, c1 at next level, right associativity) : m_scope.
Notation "c1 ;; c2" := (bind c1 (fun _ => c2))
  (at level 100, right associativity) : m_scope.
Open Scope m_scope.

Definition get_users : M (gmap string user) := fun w => (Ok (users w), w).

Definition put_users (us : gmap string user) : M unit :=
  fun w => (Ok tt, World us (sessions w) (reads w) (trace w)).

Definition emit (e : event) : M unit :=
  fun w => (Ok tt, World (users w) (sessions w) (reads w) (trace w ++ [e])).

(** The truth value of [context.user_data.get(key)] for user [uid]: a
    missing key reads as [None], which is falsy. *)
Definition flag_in (ss : gmap Z (gmap string bool)) (uid : Z) (key : string)
  : bool :=
  default false (default ∅ (ss !! uid) !! key).

Definition flag (w : world) (uid : Z) (key : string) : bool :=
  flag_in (sessions w) uid key.

(** [context.user_data[key] = b] on the dictionary of user [uid]. *)
Definition set_flag (ss : gmap Z (gmap string bool)) (uid : Z) (key : string)
  (b : bool) : gmap Z (gmap string bool) :=
  <[uid := <[key := b]> (default ∅ (ss !! uid))]> ss.

Definition user_data_get (uid : Z) (key : string) : M bool :=
  fun w => (Ok (flag w uid key), w).

Definition user_data_set (uid : Z) (key : string) (b : bool) : M unit :=
  fun w => (Ok tt,
            World (users w) (set_flag (sessions w) uid key b) (reads w) (trace w)).

(** ** Sample values

    A clock that ticks once per reading, a translation table that spells
    out its key, ASCII case mapping, a remote service that answers 200 to
    everything, and one registered user. *)

Definition sample_clock (n : nat) : Z := 1700000000000000 + Z.of_nat n.

Definition sample_text (key lang : string) : string := lang +:+ ":" +:+ key.

Definition sample_has (key lang : string) : bool := false.

Definition ascii_lower_char (a : ascii) : ascii :=
  let n := N_of_ascii a in
  if ((65 <=? n) && (n <=? 90))%N then ascii_of_N (n + 32) else a.

Fixpoint ascii_lower (s : string) : string :=
  match s with
  | EmptyString => EmptyString
  | String a r => String (ascii_lower_char a) (ascii_lower r)
  end.

Definition ascii_upper_char (a : ascii) : ascii :=
  let n := N_of_ascii a in
  if ((97 <=? n) && (n <=? 122))%N then ascii_of_N (n - 32) else a.

Fixpoint ascii_upper (s : string) : string :=
  match s with
  | EmptyString => EmptyString
  | String a r => String (ascii_upper_char a) (ascii_upper r)
  end.

Definition sample_strftime (t : Z) : string := Py.str t.

Definition sample_messages : list message :=
  [Message "hello #words" (Some "salom") (Some "#words");
   Message "to run #verbs2" None (Some "#verbs2")].

Definition sample_env : env :=
  Env (Response 200 [Hashtag "#words" ""])
      (fun _ _ => Response 200 tt)
      (fun _ => Response 200 tt)
      (Response 200 sample_messages)
      (fun _ => Response 200 tt)
      (fun _ => Response 200 tt)
      (fun _ _ => Some "/tmp/tmpwords.pdf")
      SendFails.

Definition sample_user : user :=
  User 7 (Some "ann") (Some "Ann") None "en"
       1699999999000000 1699999999000000 initial_stats initial_preferences.

(** The store holds [sample_user]; her session dictionary is [flags]. *)
Definition sample_world (flags : gmap string bool) : world :=
  World (<[Py.str 7 := sample_user]> ∅) (<[7 := flags]> ∅) 0 [].

Definition empty_world : world := World ∅ ∅ 0 [].

Definition pending (key : string) : gmap string bool := <[key := true]> ∅.

Definition sample_update (text : string) : update :=
  Update 7 (Some "ann") "Ann" None text.

Section Bot.

(** The wall clock: [clock n] is what the [n]-th call of [datetime.now()]
    returns. *)
Variable clock : nat -> Z.

(** The [translations] module: [get_text key lang] and
    [key in LANGUAGES[lang]], taken as total functions (every language a
    record holds has its table). *)
Variable get_text : string -> string -> string.
Variable in_LANGUAGES : string -> string -> bool.

(** [str.lower] and [str.upper] (Unicode case mapping) and
    [strftime('%Y-%m-%d %H:%M')]. *)
Variable lower : string -> string.
Variable upper : string -> string.
Variable strftime : Z -> string.

Definition datetime_now : M Z :=
  fun w => (Ok (clock (reads w)),
            World (users w) (sessions w) (S (reads w)) (trace w)).

(** *** users.py *)

(** [save_users]: the whole store is written out; a failed write is
    logged and swallowed, so the call never raises. *)
Definition save_users : M unit :=
  us <- get_users ;; emit (SaveUsers us).

Definition register_user (uid : Z) (uname fname lname : option string)
  : M bool :=
  let user_id_str := Py.str uid in
  us <- get_users ;;
  match us !! user_id_str with
  | Some _ => ret false
  | None =>
      t1 <- datetime_now ;;
      t2 <- datetime_now ;;
      let user_data :=
        User uid uname fname lname "en" t1 t2
             initial_stats initial_preferences in
      put_users (<[user_id_str := user_data]> us) ;;
      save_users ;;
      ret true
  end.

Definition get_user (uid : Z) : M (option user) :=
  us <- get_users ;; ret (us !! Py.str uid).

Definition update_user_language (uid : Z) (lang : string) : M unit :=
  let user_id_str := Py.str uid in
  us <- get_users ;;
  match us !! user_id_str with
  | Some u =>
      let u1 := set_language lang u in
      put_users (<[user_id_str := u1]> us) ;;
      t <- datetime_now ;;
      put_users (<[user_id_str := set_last_activity t u1]> us) ;;
      save_users
  | None => ret tt
  end.

(** [stats['total_messages'] += 1] raises [KeyError] when the key is
    missing; [last_activity] has been written by then. *)
Definition update_user_activity (uid : Z) : M unit :=
  let user_id_str := Py.str uid in
  us <- get_users ;;
  match us !! user_id_str with
  | Some u =>
      t <- datetime_now ;;
      let u1 := set_last_activity t u in
      put_users (<[user_id_str := u1]> us) ;;
      match stats u1 !! "total_messages" with
      | Some n =>
          put_users (<[user_id_str :=
                         set_stats (<["total_messages" := n + 1]> (stats u1)) u1]> us) ;;
          save_users
      | None => raise (KeyError "total_messages")
      end
  | None => ret tt
  end.

Definition increment_stat (uid : Z) (stat_name : string) : M unit :=
  let user_id_str := Py.str uid in
  us <- get_users ;;
  match us !! user_id_str with
  | Some u =>
      match stats u !! stat_name with
      | Some n =>
          put_users (<[user_id_str :=
                         set_stats (<[stat_name := n + 1]> (stats u)) u]> us) ;;
          save_users
      | None => ret tt
      end
  | None => ret tt
  end.

(** *** bot.py: helpers *)

Definition NL : string := String "010"%char "".

(** [update.message.reply_text]: the reply is recorded; the transport is
    taken to deliver it. *)
Definition reply_text (to : Z) (text : string) (reply_markup : option keyboard)
  : M unit :=
  emit (ReplyText to text reply_markup).

Definition get_user_language (uid : Z) : M string :=
  user <- get_user uid ;;
  match user with
  | Some u => ret (language u)
  | None => ret "en"
  end.

Definition is_user_registered (uid : Z) : M bool :=
  user <- get_user uid ;;
  match user with
  | Some _ => ret true
  | None => ret false
  end.

Definition get_main_keyboard (lang : string) : keyboard :=
  [ [get_text "create_hashtag" lang; get_text "delete_hashtag" lang];
    [get_text "import_list" lang; get_text "help" lang];
    [get_text "language_button" lang; get_text "open_website" lang];
    [get_text "profile" lang; get_text "register" lang] ].

Definition not_registered_text (lang : string) : string :=
  get_text "profile_not_registered" lang +:+ NL +:+ NL +:+
  get_text "profile_register_first" lang.

(** *** bot.py: the remote client *)

Section Remote.

Variable e : env.

(** The uniform mapping of a [requests] outcome that is not a 200. *)
Definition website_down : string :=
  "Website is not running. Please start the website first.".

(** [[word for word in text.split() if word.startswith('#')]] *)
Definition hashtags_of (text : string) : list string :=
  filter (fun word => Py.startswith word "#" = true) (Py.split text).

(** [hashtags[0] if hashtags else "#слова"] *)
Definition category_of (hashtags : list string) : string :=
  match hashtags with
  | h :: _ => h
  | [] => "#слова"
  end.

Definition send_message_to_website (text : string) (uid : Z)
  (uname : string) : M (bool * string) :=
  let hashtags := hashtags_of text in
  let category := category_of hashtags in
  t <- datetime_now ;;
  let data := PostData text hashtags (Py.str uid) uname t in
  emit (Http (PostMessage data)) ;;
  match api_post_message e data with
  | Response code _ =>
      if code =? 200 then ret (true, "Message sent successfully!")
      else ret (false, "Error: " +:+ Py.str code)
  | ConnectionError => ret (false, website_down)
  | Timeout msg | OtherException msg => ret (false, "Error: " +:+ msg)
  end.

Definition sync_user_to_backend (uid : Z) : M (bool * string) :=
  user <- get_user uid ;;
  match user with
  | None => ret (false, "User not found")
  | Some u =>
      let data := UserPayload (Py.str uid) (username u) (first_name u)
                              (last_name u) (language u) (registered_at u)
                              (stats u) in
      emit (Http (PostUser data)) ;;
      match api_post_user e data with
      | Response code _ =>
          if code =? 200 then ret (true, "User synced successfully")
          else ret (false, "Backend sync failed: " +:+ Py.str code)
      | ConnectionError => ret (false, "Backend not available")
      | Timeout msg | OtherException msg => ret (false, "Sync error: " +:+ msg)
      end
  end.

Definition create_hashtag (hashtag_name description : string)
  : M (bool * string) :=
  emit (Http (PostHashtag hashtag_name description)) ;;
  match api_post_hashtag e hashtag_name description with
  | Response code _ =>
      if code =? 200 then ret (true, "Hashtag created successfully!")
      else if code =? 409 then ret (false, "Hashtag already exists!")
      else ret (false, "Error: " +:+ Py.str code)
  | ConnectionError => ret (false, website_down)
  | Timeout msg | OtherException msg => ret (false, "Error: " +:+ msg)
  end.

Definition delete_hashtag (hashtag_name : string) : M (bool * string) :=
  emit (Http (DeleteHashtag hashtag_name)) ;;
  match api_delete_hashtag e hashtag_name with
  | Response code _ =>
      if code =? 200 then ret (true, "Hashtag deleted successfully!")
      else if code =? 404 then ret (false, "Hashtag not found!")
      else ret (false, "Error: " +:+ Py.str code)
  | ConnectionError => ret (false, website_down)
  | Timeout msg | OtherException msg => ret (false, "Error: " +:+ msg)
  end.

(** The pair [(success, result)] of the two listing functions is a sum:
    [inl] the listing when [success], [inr] the error text otherwise. *)
Definition get_hashtags : M (list hashtag + string) :=
  emit (Http GetHashtags) ;;
  match api_get_hashtags e with
  | Response code hashtags =>
      if code =? 200 then ret (inl hashtags)
      else ret (inr ("Error: " +:+ Py.str code))
  | ConnectionError => ret (inr website_down)
  | Timeout msg | OtherException msg => ret (inr ("Error: " +:+ msg))
  end.

(** [[msg for msg in messages if msg.get('category') == category]] *)
Definition in_category (category : string) (messages : list message)
  : list message :=
  filter (fun msg => m_category msg = Some category) messages.

Definition get_words_by_category (category : string)
  : M (list message + string) :=
  emit (Http GetMessages) ;;
  match api_get_messages e with
  | Response code messages =>
      if code =? 200 then ret (inl (in_category category messages))
      else ret (inr ("Error: " +:+ Py.str code))
  | ConnectionError => ret (inr website_down)
  | Timeout _ => ret (inr "Request timed out. Please try again.")
  | OtherException msg => ret (inr ("Error: " +:+ msg))
  end.

(** [generate_pdf]: the rendering itself is the document library's; the
    call is recorded and its outcome, a path or [None], comes from the
    environment. *)
Definition generate_pdf (words : list message) (category_name : string)
  : M (option string) :=
  emit (GeneratePdf words category_name) ;;
  ret (pdf_result e words category_name).

End Remote.

(** *** bot.py: the flow handlers *)

Section Handlers.

Variable e : env.

Definition bullet_list (hashtags : list hashtag) : string :=
  Py.join_lines (map (fun h => "• " +:+ h_name h) hashtags).

Definition handle_create_hashtag (upd : update) : M unit :=
  let uid := eff_id upd in
  let text := Py.strip (msg_text upd) in
  lang <- get_user_language uid ;;
  awaiting <- user_data_get uid "awaiting_hashtag_create" ;;
  if awaiting then
    user_data_set uid "awaiting_hashtag_create" false ;;
    let parts := Py.split_space_1 text in
    let hashtag_name := hd "" parts in
    let description := match parts with _ :: d :: _ => d | _ => "" end in
    if negb (Py.startswith hashtag_name "#") then
      reply_text uid
        (get_text "hashtag_must_start" lang +:+ NL +:+ NL +:+
         get_text "hashtag_example" lang)
        (Some (get_main_keyboard lang))
    else
      r <- create_hashtag e hashtag_name description ;;
      let '(success, message) := r in
      if success then
        increment_stat uid "hashtags_created" ;;
        reply_text uid
          (get_text "hashtag_created" lang +:+ NL +:+ NL +:+
           get_text "hashtag_name" lang +:+ " " +:+ hashtag_name +:+ NL +:+
           get_text "description" lang +:+ " " +:+
           (if Py.is_empty description then get_text "no_description" lang
            else description))
          (Some (get_main_keyboard lang))
      else
        reply_text uid ("❌ " +:+ message) (Some (get_main_keyboard lang))
  else
    user_data_set uid "awaiting_hashtag_create" true ;;
    reply_text uid
      (get_text "create_hashtag_mode" lang +:+ NL +:+ NL +:+
       get_text "send_hashtag" lang +:+ NL +:+ NL +:+
       get_text "format" lang +:+ NL +:+ NL +:+
       get_text "examples" lang +:+ NL +:+
       get_text "new_hashtag_example" lang +:+ NL +:+
       get_text "dictionary_example" lang +:+ NL +:+
       get_text "grammar_example" lang)
      (Some (get_main_keyboard lang)).

Definition handle_delete_hashtag (upd : update) : M unit :=
  let uid := eff_id upd in
  let text := Py.strip (msg_text upd) in
  lang <- get_user_language uid ;;
  awaiting <- user_data_get uid "awaiting_hashtag_delete" ;;
  if awaiting then
    user_data_set uid "awaiting_hashtag_delete" false ;;
    if negb (Py.startswith text "#") then
      reply_text uid
        (get_text "hashtag_must_start" lang +:+ NL +:+ NL +:+
         get_text "delete_example" lang)
        (Some (get_main_keyboard lang))
    else
      r <- delete_hashtag e text ;;
      let '(success, message) := r in
      if success then
        increment_stat uid "hashtags_deleted" ;;
        reply_text uid
          (get_text "hashtag_deleted" lang +:+ NL +:+ NL +:+
           get_text "deleted_hashtag" lang +:+ " " +:+ text)
          (Some (get_main_keyboard lang))
      else
        reply_text uid ("❌ " +:+ message) (Some (get_main_keyboard lang))
  else
    r <- get_hashtags e ;;
    match r with
    | inl [] =>
        reply_text uid (get_text "no_hashtags_found" lang)
                   (Some (get_main_keyboard lang))
    | inl hashtags =>
        reply_text uid
          (get_text "delete_hashtag_mode" lang +:+ NL +:+ NL +:+
           get_text "available_hashtags" lang +:+ ":" +:+ NL +:+
           bullet_list hashtags +:+ NL +:+ NL +:+
           get_text "send_hashtag_to_delete" lang +:+ NL +:+
           get_text "delete_example" lang)
          (Some (get_main_keyboard lang))
    | inr result =>
        reply_text uid ("❌ " +:+ result) (Some (get_main_keyboard lang))
    end ;;
    user_data_set uid "awaiting_hashtag_delete" true.

(** The [try] block of [handle_import_list]: the counter first, then the
    file is opened, sent and removed; any failure on the way lands in
    the [except] branch, which replies [error_sending_pdf]. *)
Definition send_pdf (uid : Z) (lang text pdf_path : string)
  (words : list message) : M unit :=
  increment_stat uid "pdfs_generated" ;;
  let failed :=
    reply_text uid (get_text "error_sending_pdf" lang)
               (Some (get_main_keyboard lang)) in
  match doc_result e with
  | OpenFails => failed
  | SendFails => t <- datetime_now ;; failed
  | RemoveFails | DocSent =>
      t <- datetime_now ;;
      emit (ReplyDocument uid pdf_path (text +:+ "_word_list.pdf")
              ("📄 " +:+ get_text "word_list_for" lang +:+ " " +:+ text +:+
               NL +:+ NL +:+
               get_text "total_words" lang +:+ ": " +:+
               Py.str (Z.of_nat (length words)) +:+ NL +:+
               get_text "generated_on" lang +:+ ": " +:+ strftime t)) ;;
      match doc_result e with
      | RemoveFails => failed
      | _ => emit (RemoveFile pdf_path)
      end
  end.

Definition handle_import_list (upd : update) : M unit :=
  let uid := eff_id upd in
  let text := Py.strip (msg_text upd) in
  lang <- get_user_language uid ;;
  awaiting <- user_data_get uid "awaiting_category_import" ;;
  if awaiting then
    user_data_set uid "awaiting_category_import" false ;;
    if negb (Py.startswith text "#") then
      reply_text uid
        (get_text "category_must_start" lang +:+ NL +:+ NL +:+
         get_text "import_example" lang)
        (Some (get_main_keyboard lang))
    else
      r <- get_words_by_category e text ;;
      match r with
      | inl [] =>
          reply_text uid
            (get_text "no_words_found" lang +:+ " " +:+ text +:+ ".")
            (Some (get_main_keyboard lang))
      | inl words =>
          pdf_path <- generate_pdf e words text ;;
          match pdf_path with
          | Some path => send_pdf uid lang text path words
          | None =>
              reply_text uid (get_text "error_generating_pdf" lang)
                         (Some (get_main_keyboard lang))
          end
      | inr result =>
          reply_text uid ("❌ " +:+ result) (Some (get_main_keyboard lang))
      end
  else
    r <- get_hashtags e ;;
    match r with
    | inl [] =>
        reply_text uid (get_text "no_categories_found" lang)
                   (Some (get_main_keyboard lang))
    | inl hashtags =>
        reply_text uid
          (get_text "import_list_mode" lang +:+ NL +:+ NL +:+
           get_text "available_categories" lang +:+ ":" +:+ NL +:+
           bullet_list hashtags +:+ NL +:+ NL +:+
           get_text "send_category_to_import" lang +:+ NL +:+
           get_text "import_example" lang)
          (Some (get_main_keyboard lang))
    | inr result =>
        reply_text uid ("❌ " +:+ result) (Some (get_main_keyboard lang))
    end ;;
    user_data_set uid "awaiting_category_import" true.

Definition handle_open_website (upd : update) : M unit :=
  let uid := eff_id upd in
  lang <- get_user_language uid ;;
  let website_url := get_text "website_url" lang in
  reply_text uid
    (get_text "website_link" lang +:+ NL +:+ NL +:+ "🔗 " +:+ website_url)
    (Some (get_main_keyboard lang)).

End Handlers.

(** *** bot.py: commands and the dispatcher *)

Section Dispatcher.

Variable e : env.

Definition register_command (upd : update) : M unit :=
  let uid := eff_id upd in
  registered <- is_user_registered uid ;;
  if registered then
    lang <- get_user_language uid ;;
    reply_text uid (get_text "user_already_registered" lang)
               (Some (get_main_keyboard lang))
  else
    success <- register_user uid (eff_username upd)
                 (Some (eff_first_name upd)) (eff_last_name upd) ;;
    if success then
      let lang := "en" in
      update_user_language uid lang ;;
      r <- sync_user_to_backend e uid ;;
      let '(sync_success, sync_message) := r in
      let welcome_message :=
        get_text "registration_successful" lang +:+ NL +:+ NL +:+
        get_text "registration_welcome" lang in
      let welcome_message :=
        if sync_success then
          welcome_message +:+ NL +:+ NL +:+ "✅ " +:+
          (if in_LANGUAGES "user_synced_backend" lang
           then get_text "user_synced_backend" lang
           else "User data synced to website")
        else
          welcome_message +:+ NL +:+ NL +:+ "⚠️ " +:+
          (if in_LANGUAGES "user_sync_failed" lang
           then get_text "user_sync_failed" lang
           else "User data sync failed (website offline)") in
      reply_text uid welcome_message (Some (get_main_keyboard lang))
    else
      reply_text uid "❌ Registration failed. Please try again." None.

(** [str(x)] of an optional string inside an f-string. *)
Definition show (o : option string) : string := default "None" o.

Definition microseconds_per_day : Z := 86400 * 1000000.

Definition profile_command (upd : update) : M unit :=
  let uid := eff_id upd in
  registered <- is_user_registered uid ;;
  if negb registered then
    lang <- get_user_language uid ;;
    reply_text uid (not_registered_text lang) None
  else
    user <- get_user uid ;;
    match user with
    | None => raise (KeyError "registered_at")
    | Some u =>
        now <- datetime_now ;;
        let days_registered :=
          (now - registered_at u) / microseconds_per_day in
        let lang := language u in
        match stats u !! "words_saved", stats u !! "hashtags_created",
              stats u !! "hashtags_deleted", stats u !! "pdfs_generated",
              stats u !! "total_messages" with
        | Some ws, Some hc, Some hdel, Some pg, Some tm =>
            reply_text uid
              (get_text "profile_title" lang +:+ NL +:+ NL +:+
               get_text "profile_username" lang +:+ " " +:+ show (username u) +:+ NL +:+
               get_text "profile_name" lang +:+ " " +:+ show (first_name u) +:+
               (if Py.truthy (last_name u) then " " +:+ show (last_name u) else "") +:+
               NL +:+ get_text "profile_language" lang +:+ " " +:+
               upper (language u) +:+ NL +:+
               get_text "profile_registered" lang +:+ " " +:+
               strftime (registered_at u) +:+ NL +:+
               "(" +:+ Py.str days_registered +:+ " " +:+
               get_text "profile_days" lang +:+ ")" +:+ NL +:+ NL +:+
               get_text "profile_stats" lang +:+ NL +:+
               "• " +:+ get_text "profile_words_saved" lang +:+ ": " +:+ Py.str ws +:+ NL +:+
               "• " +:+ get_text "profile_hashtags_created" lang +:+ ": " +:+ Py.str hc +:+ NL +:+
               "• " +:+ get_text "profile_hashtags_deleted" lang +:+ ": " +:+ Py.str hdel +:+ NL +:+
               "• " +:+ get_text "profile_pdfs_generated" lang +:+ ": " +:+ Py.str pg +:+ NL +:+
               "• " +:+ get_text "profile_total_messages" lang +:+ ": " +:+ Py.str tm)
              (Some (get_main_keyboard lang))
        | None, _, _, _, _ => raise (KeyError "words_saved")
        | _, None, _, _, _ => raise (KeyError "hashtags_created")
        | _, _, None, _, _ => raise (KeyError "hashtags_deleted")
        | _, _, _, None, _ => raise (KeyError "pdfs_generated")
        | _, _, _, _, None => raise (KeyError "total_messages")
        end
    end.

Definition help_text (lang : string) : string :=
  get_text "welcome" lang +:+ NL +:+ NL +:+
  get_text "welcome_desc" lang +:+ NL +:+ NL +:+
  get_text "hashtag_help" lang +:+ NL +:+
  "• #заметка - " +:+ get_text "notes" lang +:+ NL +:+
  "• #разборка - " +:+ get_text "grammar_analysis" lang +:+ NL +:+
  "• #фразы - " +:+ get_text "useful_phrases" lang +:+ NL +:+
  "• #слова - " +:+ get_text "new_words" lang +:+ NL +:+
  "• #грамматика - " +:+ get_text "grammar_rules" lang +:+ NL +:+ NL +:+
  get_text "example" lang.

Definition help_command (upd : update) : M unit :=
  let uid := eff_id upd in
  registered <- is_user_registered uid ;;
  if negb registered then
    reply_text uid (not_registered_text "en") None
  else
    lang <- get_user_language uid ;;
    update_user_activity uid ;;
    reply_text uid (help_text lang) (Some (get_main_keyboard lang)).

(** [x in [...]] on strings. *)
Definition elem (x : string) (l : list string) : bool :=
  existsb (String.eqb x) l.

Definition english_tokens : list string :=
  ["1"; "english"; "en"; "английский"].
Definition russian_tokens : list string :=
  ["2"; "русский"; "ru"; "russian"].
Definition uzbek_tokens : list string :=
  ["3"; "узбекский"; "uz"; "uzbek"; "o'zbek"].


Definition invalid_choice_text : string :=
  get_text "invalid_language_choice" "en" +:+ NL +:+
  get_text "invalid_language_choice" "ru" +:+ NL +:+
  get_text "invalid_language_choice" "uz".

Definition three (key : string) : string :=
  get_text key "en" +:+ " / " +:+ get_text key "ru" +:+ " / " +:+
  get_text key "uz".

Definition handle_language_selection (upd : update) : M unit :=
  let uid := eff_id upd in
  let text := Py.strip (msg_text upd) in
  registered <- is_user_registered uid ;;
  if negb registered then
    reply_text uid (not_registered_text "en") None
  else
    update_user_activity uid ;;
    awaiting <- user_data_get uid "awaiting_language" ;;
    if awaiting then
      user_data_set uid "awaiting_language" false ;;
      let lang_choice := Py.strip (lower text) in
      if elem lang_choice english_tokens then
        update_user_language uid "en" ;;
        reply_text uid (get_text "language_set_english" "en")
                   (Some (get_main_keyboard "en"))
      else if elem lang_choice russian_tokens then
        update_user_language uid "ru" ;;
        reply_text uid (get_text "language_set_russian" "ru")
                   (Some (get_main_keyboard "ru"))
      else if elem lang_choice uzbek_tokens then
        update_user_language uid "uz" ;;
        reply_text uid (get_text "language_set_uzbek" "uz")
                   (Some (get_main_keyboard "uz"))
      else
        reply_text uid invalid_choice_text (Some (get_main_keyboard "en"))
    else
      user_data_set uid "awaiting_language" true ;;
      reply_text uid
        (three "choose_language" +:+ ":" +:+ NL +:+ NL +:+
         "1. " +:+ three "english_option" +:+ NL +:+
         "2. " +:+ three "russian_option" +:+ NL +:+
         "3. " +:+ three "uzbek_option" +:+ NL +:+ NL +:+
         get_text "send_number_or_name" "en" +:+ NL +:+
         get_text "send_number_or_name" "ru" +:+ NL +:+
         get_text "send_number_or_name" "uz")
        (Some (get_main_keyboard "en")).

(** The tagged-note branch of [handle_message]. *)
Definition handle_tagged_note (upd : update) (text lang : string)
  (hashtags : list string) : M unit :=
  let uid := eff_id upd in
  r <- send_message_to_website e text uid
         (Py.or_else (eff_username upd) (eff_first_name upd)) ;;
  let '(success, message) := r in
  if success then
    increment_stat uid "words_saved" ;;
    reply_text uid
      (get_text "word_saved" lang +:+ NL +:+ NL +:+
       get_text "word" lang +:+ ": " +:+ text +:+ NL +:+
       get_text "category" lang +:+ ": " +:+ hd "" hashtags +:+ NL +:+ NL +:+
       get_text "check_website" lang)
      (Some (get_main_keyboard lang))
  else
    reply_text uid
      ("❌ " +:+ message +:+ NL +:+ NL +:+ get_text "website_not_running" lang)
      (Some (get_main_keyboard lang)).

(** The chain of label comparisons that ends [handle_message]. *)
Definition menu_dispatch (upd : update) (lower_text lang : string) : M unit :=
  let uid := eff_id upd in
  let is_label key := String.eqb lower_text (lower (get_text key lang)) in
  if is_label "help" then help_command upd
  else if is_label "create_hashtag" then handle_create_hashtag e upd
  else if is_label "delete_hashtag" then handle_delete_hashtag e upd
  else if is_label "import_list" then handle_import_list e upd
  else if is_label "language_button" then handle_language_selection upd
  else if is_label "open_website" then handle_open_website upd
  else if is_label "profile" then profile_command upd
  else if is_label "register" then register_command upd
  else
    reply_text uid
      (get_text "send_hashtag_message" lang +:+ NL +:+ NL +:+
       get_text "examples" lang +:+ ":" +:+ NL +:+
       (if in_LANGUAGES ("examples_" +:+ lang) lang
        then get_text ("examples_" +:+ lang) lang
        else get_text "examples_en" lang))
      (Some (get_main_keyboard lang)).

Definition handle_message (upd : update) : M unit :=
  let uid := eff_id upd in
  let text := Py.strip (msg_text upd) in
  let lower_text := lower text in
  registered <- is_user_registered uid ;;
  if negb registered then
    let lang := "en" in
    if String.eqb lower_text (lower (get_text "register" lang)) then
      register_command upd
    else
      reply_text uid (not_registered_text lang) None
  else
    lang <- get_user_language uid ;;
    update_user_activity uid ;;
    c <- user_data_get uid "awaiting_hashtag_create" ;;
    if c then handle_create_hashtag e upd else
    d <- user_data_get uid "awaiting_hashtag_delete" ;;
    if d then handle_delete_hashtag e upd else
    i <- user_data_get uid "awaiting_category_import" ;;
    if i then handle_import_list e upd else
    l <- user_data_get uid "awaiting_language" ;;
    if l then handle_language_selection upd else
    let hashtags := hashtags_of text in
    match hashtags with
    | _ :: _ => handle_tagged_note upd text lang hashtags
    | [] => menu_dispatch upd lower_text lang
    end.

End Dispatcher.

(** *** The session state machine *)

(** The four flags of [context.user_data] read as one state; [None] when
    more than one flag is set. *)
Definition state_of (w : world) (uid : Z) : option state :=
  match flag w uid "awaiting_hashtag_create",
        flag w uid "awaiting_hashtag_delete",
        flag w uid "awaiting_category_import",
        flag w uid "awaiting_language" with
  | false, false, false, false => Some Idle
  | true, false, false, false => Some AwaitingHashtagCreate
  | false, true, false, false => Some AwaitingHashtagDelete
  | false, false, true, false => Some AwaitingCategoryImport
  | false, false, false, true => Some AwaitingLanguageChoice
  | _, _, _, _ => None
  end.

(** The handler a pending state hands the next message to. *)
Definition flow_handler (e : env) (s : state) (upd : update) : M unit :=
  match s with
  | Idle => ret tt
  | AwaitingHashtagCreate => handle_create_hashtag e upd
  | AwaitingHashtagDelete => handle_delete_hashtag e upd
  | AwaitingCategoryImport => handle_import_list e upd
  | AwaitingLanguageChoice => handle_language_selection upd
  end.

(** *** Drivers for sequences of store calls *)

Fixpoint increment_stats (calls : list (Z * string)) : M unit :=
  match calls with
  | [] => ret tt
  | (uid, stat_name) :: rest =>
      increment_stat uid stat_name ;; increment_stats rest
  end.


(** A record as [register_user] makes them: its counters are the five
    fixed ones. *)
Definition wf_user (u : user) : Prop :=
  forall k, is_Some (stats u !! k) <-> k ∈ stat_names.


(** How many calls of a sequence name counter [c] of user [uid]. *)
Definition calls_naming (uid : Z) (c : string) (calls : list (Z * string)) : nat :=
  length (filter (fun p => p = (uid, c)) calls).

(** *** Vocabulary of the statements *)

Definition touched (t : Z) (n : Z) (u : user) : user :=
  set_stats (<["total_messages" := n + 1]> (stats u)) (set_last_activity t u).

Definition bumped (c : string) (n : Z) (u : user) : user :=
  set_stats (<[c := n + 1]> (stats u)) u.

Definition is_state (s s' : state) : bool :=
  match s, s' with
  | Idle, Idle
  | AwaitingHashtagCreate, AwaitingHashtagCreate
  | AwaitingHashtagDelete, AwaitingHashtagDelete
  | AwaitingCategoryImport, AwaitingCategoryImport
  | AwaitingLanguageChoice, AwaitingLanguageChoice => true
  | _, _ => false
  end.

(** The world once [update_user_activity] has run for a registered user
    whose [total_messages] counter reads [n]. *)
Definition after_activity (uid : Z) (u : user) (n : Z) (w : world) : world :=
  let us := <[Py.str uid := touched (clock (reads w)) n u]> (users w) in
  World us (sessions w) (S (reads w)) (trace w ++ [SaveUsers us]).

(** The events a pending flow may produce: anything but the item post of
    the tagged-note branch, the category listing of the menu entries and
    the user sync of registration. *)
Definition flow_event (ev : event) : bool :=
  match ev with
  | Http (PostMessage _) | Http GetHashtags | Http (PostUser _) => false
  | _ => true
  end.

(** [quiet m]: from every world [m] returns normally, has written no
    session flag, and has added only flow events to the trace. *)
Definition quiet {A} (m : M A) : Prop :=
  forall w, exists a w' evs,
    m w = (Ok a, w')
    /\ sessions w' = sessions w
    /\ trace w' = (trace w ++ evs)%list
    /\ Forall (fun ev => flow_event ev = true) evs.

(** What a pending flow does to the world: its own flag is cleared, no
    other flag is written, and only flow events are produced. *)
Definition consumed (uid : Z) (key : string) (w w' : world) : Prop :=
  sessions w' = set_flag (sessions w) uid key false
  /\ exists evs,
       trace w' = (trace w ++ evs)%list
       /\ Forall (fun ev => flow_event ev = true) evs.

(** The flag a pending state stands for. *)
Definition flag_of_state (s : state) : string :=
  match s with
  | Idle => ""
  | AwaitingHashtagCreate => "awaiting_hashtag_create"
  | AwaitingHashtagDelete => "awaiting_hashtag_delete"
  | AwaitingCategoryImport => "awaiting_category_import"
  | AwaitingLanguageChoice => "awaiting_language"
  end.




Definition is_http (ev : event) : bool :=
  match ev with
  | Http _ => true
  | _ => false
  end.





(** [still m]: [m] writes no session flag, whether it returns or raises. *)
Definition still {A} (m : M A) : Prop :=
  forall w, sessions (m w).2 = sessions w.

(** [once uid m]: [m] writes at most one flag, in the dictionary of
    [uid]. *)
Definition once (uid : Z) {A} (m : M A) : Prop :=
  forall w,
    sessions (m w).2 = sessions w
    \/ exists key b, sessions (m w).2 = set_flag (sessions w) uid key b.

(** The world after a sequence of messages, each handled in its own
    environment; a handler that raised leaves the world it had reached. *)
Fixpoint handle_messages (l : list (env * update)) (w : world) : world :=
  match l with
  | [] => w
  | (e, upd) :: rest => handle_messages rest (handle_message e upd w).2
  end.

(** *** users.py: the remaining operations *)

Definition set_preferences (p : gmap string bool) (u : user) : user :=
  User (user_id u) (username u) (first_name u) (last_name u) (language u)
       (registered_at u) (last_activity u) (stats u) p.

Definition delete_user (uid : Z) : M bool :=
  let user_id_str := Py.str uid in
  us <- get_users ;;
  match us !! user_id_str with
  | Some _ =>
      put_users (delete user_id_str us) ;;
      save_users ;;
      ret true
  | None => ret false
  end.

(** A record always carries its [preferences] dictionary, so the branch
    that creates a missing one is never taken. *)
Definition update_user_preference (uid : Z) (preference : string)
  (value : bool) : M unit :=
  let user_id_str := Py.str uid in
  us <- get_users ;;
  match us !! user_id_str with
  | Some u =>
      put_users (<[user_id_str :=
                     set_preferences (<[preference := value]> (preferences u)) u]> us) ;;
      save_users
  | None => ret tt
  end.

Definition get_users_count : M nat :=
  us <- get_users ;; ret (size us).

Definition get_user_stats (uid : Z) : M (gmap string Z) :=
  user <- get_user uid ;;
  match user with
  | Some u => ret (stats u)
  | None => ret ∅
  end.

(** The dictionary [get_user_profile] builds. *)
Record profile := Profile {
  p_user_id : Z;
  p_username : option string;
  p_first_name : option string;
  p_last_name : option string;
  p_language : string;
  p_registered_at : Z;
  p_days_registered : Z;
  p_stats : gmap string Z;
  p_preferences : gmap string bool
}.

(** [None] stands for the empty dictionary returned for an absent user;
    [(datetime.now() - registered_date).days] is the floor of the
    difference in days. *)
Definition get_user_profile (uid : Z) : M (option profile) :=
  user <- get_user uid ;;
  match user with
  | None => ret None
  | Some u =>
      now <- datetime_now ;;
      let days_registered := (now - registered_at u) / microseconds_per_day in
      ret (Some (Profile (user_id u) (username u) (first_name u) (last_name u)
                         (language u) (registered_at u) days_registered
                         (stats u) (preferences u)))
  end.

(** *** Relations between the world before and after a handler *)

(** [respects R m]: whatever [m] does, returning or raising, it takes a
    world to one related by [R]. *)
Definition respects (R : world -> world -> Prop) {A} (m : M A) : Prop :=
  forall w, R w (m w).2.

(** Nothing of another user is touched: the records under other keys and
    the session dictionaries of other users stay as they are. *)
Definition others_untouched (uid : Z) (w w' : world) : Prop :=
  (forall k, k ≠ Py.str uid -> users w' !! k = users w !! k)
  /\ (forall uid0, uid0 ≠ uid -> sessions w' !! uid0 = sessions w !! uid0).

(** A record is carried over: same identity and registration time, the
    same counters, none of them lower. *)
Definition carried_over (u u' : user) : Prop :=
  user_id u' = user_id u
  /\ username u' = username u
  /\ first_name u' = first_name u
  /\ last_name u' = last_name u
  /\ registered_at u' = registered_at u
  /\ preferences u' = preferences u
  /\ (forall c, is_Some (stats u' !! c) <-> is_Some (stats u !! c))
  /\ (forall c n n', stats u !! c = Some n -> stats u' !! c = Some n' -> n <= n').

(** Every record of the store is still there, carried over. *)
Definition records_kept (w w' : world) : Prop :=
  forall k u, users w !! k = Some u ->
    exists u', users w' !! k = Some u' /\ carried_over u u'.


(** What a store operation for [uid] does to the world: the sessions stay,
    and the store either stays or gets the record of [uid] written, the
    old one, if any, carried over. *)
Definition rewrites (uid : Z) (w w' : world) : Prop :=
  sessions w' = sessions w
  /\ (users w' = users w
      \/ exists u',
           users w' = <[Py.str uid := u']> (users w)
           /\ forall u, users w !! Py.str uid = Some u -> carried_over u u').

(** *** Vocabulary of the flows *)

(** The requests among a list of events, in order. *)
Definition requests (evs : list event) : list request :=
  omap (fun ev => match ev with Http r => Some r | _ => None end) evs.












(** The record [register_command] leaves for a new user: the one
    [register_user] builds from the sender, its [last_activity] moved to
    the reading [update_user_language] takes. *)
Definition registered_record (upd : update) (w : world) : user :=
  User (eff_id upd) (eff_username upd) (Some (eff_first_name upd))
       (eff_last_name upd) "en" (clock (reads w)) (clock (S (S (reads w))))
       initial_stats initial_preferences.

(** The body [sync_user_to_backend] posts for a record. *)
Definition sync_payload (uid : Z) (u : user) : user_payload :=
  UserPayload (Py.str uid) (username u) (first_name u) (last_name u)
              (language u) (registered_at u) (stats u).


(** [silent m]: [m] only adds to the trace, and no request. *)
Definition silent {A} (m : M A) : Prop :=
  forall w, exists evs,
    trace (m w).2 = (trace w ++ evs)%list /\ requests evs = [].

(** [one_request m]: [m] only adds to the trace, and at most one
    request. *)
Definition one_request {A} (m : M A) : Prop :=
  forall w, exists evs,
    trace (m w).2 = (trace w ++ evs)%list
    /\ (length (requests evs) <= 1)%nat.



(** *** bot.py: the content of the rendered document *)

(** What [generate_pdf] puts in the [story] it hands to the document
    library: paragraphs in one of four styles and vertical spacers. *)
Inductive style := TitleStyle | WordStyle | TranslationStyle | FooterStyle.

Inductive flowable :=
| Paragraph (text : string) (s : style)
| Spacer (width height : Z).

(** The symbols cut out of an entry, in the order of the [replace]
    calls. *)
Definition decorations : list string :=
  ["📚"; "📄"; "🏷️"; "🗑️"; "❓"; "✅"; "❌"; "ℹ️"; "💡"].

Definition strip_decorations (s : string) : string :=
  fold_left Py.remove decorations s.

(** The text of an entry: the category tag is cut out, then the blanks at
    both ends, then the symbols. *)
Definition word_text_of (category_name : string) (word_data : message)
  : string :=
  strip_decorations
    (Py.strip (Py.remove (m_text word_data) (" " +:+ category_name))).

(** The flowables of one item, [i] being its number. *)
Definition entry_of (category_name : string) (i : nat) (word_data : message)
  : list flowable :=
  let word_text := word_text_of category_name word_data in
  if Py.is_empty word_text then []
  else
    [Paragraph (Py.str (Z.of_nat i) +:+ ". " +:+ word_text) WordStyle]
    ++ (if Py.truthy (m_translation word_data) then
          let translation :=
            strip_decorations (default "" (m_translation word_data)) in
          if Py.is_empty (Py.strip translation) then []
          else [Paragraph ("   → " +:+ Py.strip translation) TranslationStyle]
        else [])
    ++ [Spacer 1 3].

(** [for i, word_data in enumerate(words, i)] *)
Fixpoint entries_from (category_name : string) (i : nat)
  (words : list message) : list flowable :=
  match words with
  | [] => []
  | word_data :: rest =>
      (entry_of category_name i word_data
       ++ entries_from category_name (S i) rest)%list
  end.

(** The story, [generated] being the formatted time of the footer. *)
Definition pdf_story (words : list message) (category_name generated : string)
  : list flowable :=
  ([Paragraph (category_name +:+ " - Word List") TitleStyle; Spacer 1 15]
   ++ entries_from category_name 1 words
   ++ [Spacer 1 15;
       Paragraph ("Generated: " +:+ generated +:+ " | Words: " +:+
                  Py.str (Z.of_nat (length words))) FooterStyle])%list.

(** The numbered entries of a story. *)
Definition word_paragraphs (story : list flowable) : list string :=
  omap (fun f => match f with
                 | Paragraph text WordStyle => Some text
                 | _ => None
                 end) story.

(** *** bot.py: the [/start] command *)

Definition start (upd : update) : M unit :=
  let uid := eff_id upd in
  registered <- is_user_registered uid ;;
  if negb registered then
    let lang := "en" in
    reply_text uid
      (get_text "welcome" lang +:+ NL +:+ NL +:+
       get_text "welcome_new_user" lang)
      None
  else
    lang <- get_user_language uid ;;
    update_user_activity uid ;;
    reply_text uid
      (get_text "welcome" lang +:+ NL +:+ NL +:+
       get_text "welcome_desc" lang +:+ NL +:+ NL +:+
       get_text "hashtag_help" lang +:+ NL +:+
       "• #заметка - " +:+ get_text "notes" lang +:+ NL +:+
       "• #разборка - " +:+ get_text "grammar_analysis" lang +:+ NL +:+
       "• #фразы - " +:+ get_text "useful_phrases" lang +:+ NL +:+
       "• #слова - " +:+ get_text "new_words" lang +:+ NL +:+
       "• #грамматика - " +:+ get_text "grammar_rules" lang +:+ NL +:+ NL +:+
       get_text "example" lang)
      (Some (get_main_keyboard lang)).

(** A command that only answers: one reply without a keyboard, and the
    store, the sessions and the clock as they were. *)
Definition turned_away (uid : Z) (w : world) (r : result unit * world)
  : Prop :=
  exists text,
    r = (Ok tt, World (users w) (sessions w) (reads w)
                      (trace w ++ [ReplyText uid text None])).

(** *** Step lemmas for the store *)

Lemma register_user_absent uid un fn ln w :
  users w !! Py.str uid = None ->
  register_user uid un fn ln w =
    let r := User uid un fn ln "en" (clock (reads w)) (clock (S (reads w)))
                  initial_stats initial_preferences in
    let us := <[Py.str uid := r]> (users w) in
    (Ok true, World us (sessions w) (S (S (reads w))) (trace w ++ [SaveUsers us])).
Proof.
  intros H. unfold register_user, bind, get_users. rewrite H. reflexivity.
Qed.

Lemma register_user_present uid un fn ln w u :
  users w !! Py.str uid = Some u ->
  register_user uid un fn ln w = (Ok false, w).
Proof.
  intros H. unfold register_user, bind, get_users. rewrite H. reflexivity.
Qed.

Lemma update_user_activity_absent uid w :
  users w !! Py.str uid = None -> update_user_activity uid w = (Ok tt, w).
Proof.
  intros H. unfold update_user_activity, bind, get_users. rewrite H. reflexivity.
Qed.

Lemma update_user_activity_present uid w u n :
  users w !! Py.str uid = Some u ->
  stats u !! "total_messages" = Some n ->
  update_user_activity uid w =
    let us := <[Py.str uid := touched (clock (reads w)) n u]> (users w) in
    (Ok tt, World us (sessions w) (S (reads w)) (trace w ++ [SaveUsers us])).
Proof.
  intros H Hn. unfold update_user_activity, bind, get_users. rewrite H.
  cbn. rewrite Hn. reflexivity.
Qed.

Lemma increment_stat_absent uid c w :
  users w !! Py.str uid = None -> increment_stat uid c w = (Ok tt, w).
Proof.
  intros H. unfold increment_stat, bind, get_users. rewrite H. reflexivity.
Qed.

Lemma increment_stat_unknown uid c w u :
  users w !! Py.str uid = Some u -> stats u !! c = None ->
  increment_stat uid c w = (Ok tt, w).
Proof.
  intros H Hc. unfold increment_stat, bind, get_users. rewrite H, Hc. reflexivity.
Qed.

Lemma increment_stat_present uid c w u n :
  users w !! Py.str uid = Some u -> stats u !! c = Some n ->
  increment_stat uid c w =
    let us := <[Py.str uid := bumped c n u]> (users w) in
    (Ok tt, World us (sessions w) (reads w) (trace w ++ [SaveUsers us])).
Proof.
  intros H Hc. unfold increment_stat, bind, get_users. rewrite H, Hc. reflexivity.
Qed.

(** *** The store: registration, counters, activity *)

Lemma str_inj uid uid' : Py.str uid = Py.str uid' -> uid = uid'.
Proof. unfold Py.str. apply pretty_Z_inj. Qed.

Lemma initial_stats_zero k : k ∈ stat_names -> initial_stats !! k = Some 0.
Proof.
  unfold stat_names. intros Hk.
  repeat (apply elem_of_cons in Hk as [-> | Hk]; [reflexivity |]).
  by apply elem_of_nil in Hk.
Qed.

Lemma initial_stats_keys k : is_Some (initial_stats !! k) -> k ∈ stat_names.
Proof.
  unfold initial_stats, stat_names. intros [v Hv].
  repeat (apply lookup_insert_Some in Hv as [[<- _] | [_ Hv]];
          [by repeat constructor |]).
  by rewrite lookup_empty in Hv.
Qed.

Lemma wf_user_initial uid un fn ln t1 t2 :
  wf_user (User uid un fn ln "en" t1 t2 initial_stats initial_preferences).
Proof.
  intros k. cbn. split; [apply initial_stats_keys |].
  intros Hk. rewrite (initial_stats_zero k Hk). eauto.
Qed.

(** The five counters stay the counters of every record. *)






(** C2: the first [register_user] for an absent id returns [True] and adds
    exactly one record, whose counters are the five fixed ones, all zero;
    a second call for the same id returns [False] and leaves the world,
    store included, as it was. *)
Theorem register_user_twice uid un fn ln un' fn' ln' w :
  users w !! Py.str uid = None ->
  exists r w1,
    register_user uid un fn ln w = (Ok true, w1)
    /\ users w1 = <[Py.str uid := r]> (users w)
    /\ size (users w1) = S (size (users w))
    /\ (forall k, k ∈ stat_names -> stats r !! k = Some 0)
    /\ (forall k, is_Some (stats r !! k) -> k ∈ stat_names)
    /\ register_user uid un' fn' ln' w1 = (Ok false, w1).
Proof.
  intros Habs. rewrite (register_user_absent _ _ _ _ _ Habs). cbn zeta.
  eexists _, _. split; [reflexivity |]. cbn [users].
  split; [reflexivity |].
  split; [by apply map_size_insert_None |].
  split; [apply initial_stats_zero |].
  split; [apply initial_stats_keys |].
  eapply register_user_present. cbn [users]. apply lookup_insert_eq.
Qed.

(** The effect of one [increment_stat] call on any counter of any
    registered user. *)
Lemma increment_stat_counter uid' c' w :
  exists w',
    increment_stat uid' c' w = (Ok tt, w')
    /\ forall uid u c n,
         users w !! Py.str uid = Some u -> stats u !! c = Some n ->
         exists u',
           users w' !! Py.str uid = Some u'
           /\ stats u' !! c =
                Some (n + if decide ((uid', c') = (uid, c)) then 1 else 0).
Proof.
  destruct (users w !! Py.str uid') as [v |] eqn:Hv.
  - destruct (stats v !! c') as [m |] eqn:Hm.
    + rewrite (increment_stat_present _ _ _ _ _ Hv Hm). cbn zeta.
      eexists. split; [reflexivity |]. cbn [users].
      intros uid u c n Hu Hc.
      destruct (decide (uid' = uid)) as [-> | Hne].
      * rewrite lookup_insert_eq. eexists. split; [reflexivity |].
        assert (v = u) as -> by congruence. cbn.
        destruct (decide (c' = c)) as [-> | Hc'].
        -- rewrite lookup_insert_eq. rewrite decide_True by done.
           congruence.
        -- rewrite lookup_insert_ne by done.
           rewrite decide_False by congruence. rewrite Hc. f_equal. lia.
      * rewrite lookup_insert_ne by (intros Heq; apply Hne, str_inj, Heq).
        exists u. split; [done |].
        rewrite decide_False by congruence. rewrite Hc. f_equal. lia.
    + rewrite (increment_stat_unknown _ _ _ _ Hv Hm).
      eexists. split; [reflexivity |].
      intros uid u c n Hu Hc. exists u. split; [done |].
      rewrite decide_False; [rewrite Hc; f_equal; lia |].
      intros [= -> ->]. congruence.
  - rewrite (increment_stat_absent _ _ _ Hv).
    eexists. split; [reflexivity |].
    intros uid u c n Hu Hc. exists u. split; [done |].
    rewrite decide_False; [rewrite Hc; f_equal; lia |].
    intros [= -> ->]. congruence.
Qed.

Lemma increment_stats_counter calls : forall w uid u c n,
  users w !! Py.str uid = Some u -> stats u !! c = Some n ->
  exists w' u',
    increment_stats calls w = (Ok tt, w')
    /\ users w' !! Py.str uid = Some u'
    /\ stats u' !! c = Some (n + Z.of_nat (calls_naming uid c calls)).
Proof.
  induction calls as [| [uid' c'] rest IH]; intros w uid u c n Hu Hc.
  - exists w, u. cbn. split; [reflexivity |]. split; [done |].
    rewrite Hc. f_equal. lia.
  - destruct (increment_stat_counter uid' c' w) as (w1 & Hrun & Hcnt).
    destruct (Hcnt uid u c n Hu Hc) as (u1 & Hu1 & Hc1).
    destruct (IH w1 uid u1 c _ Hu1 Hc1) as (w2 & u2 & Hrest & Hu2 & Hc2).
    exists w2, u2. split.
    + cbn [increment_stats]. unfold bind. rewrite Hrun. exact Hrest.
    + split; [done |]. rewrite Hc2. f_equal.
      unfold calls_naming. rewrite filter_cons.
      destruct (decide ((uid', c') = (uid, c))); cbn [length]; lia.
Qed.

(** C5: a call naming one of the five counters of a registered user adds
    exactly one to that counter and touches nothing else in the store; a
    call for an absent user or with a name outside the five changes
    nothing at all; so after any sequence of calls a counter is its
    initial value plus the number of calls that named it. *)
Theorem increment_stat_counts calls w uid u c :
  users w !! Py.str uid = Some u -> wf_user u -> c ∈ stat_names ->
  exists n,
    stats u !! c = Some n
    /\ (exists w1 u1,
          increment_stat uid c w = (Ok tt, w1)
          /\ users w1 !! Py.str uid = Some u1
          /\ stats u1 !! c = Some (n + 1)
          /\ (forall c', c' ≠ c -> stats u1 !! c' = stats u !! c')
          /\ (forall k, k ≠ Py.str uid -> users w1 !! k = users w !! k))
    /\ (forall c', c' ∉ stat_names -> increment_stat uid c' w = (Ok tt, w))
    /\ (forall uid' c', users w !! Py.str uid' = None ->
          increment_stat uid' c' w = (Ok tt, w))
    /\ (exists w2 u2,
          increment_stats calls w = (Ok tt, w2)
          /\ users w2 !! Py.str uid = Some u2
          /\ stats u2 !! c = Some (n + Z.of_nat (calls_naming uid c calls))).
Proof.
  intros Hu Hwf Hc.
  destruct (proj2 (Hwf c) Hc) as [n Hn]. exists n.
  split; [done |]. split; [| split; [| split]].
  - rewrite (increment_stat_present _ _ _ _ _ Hu Hn). cbn zeta.
    eexists _, _. split; [reflexivity |]. cbn [users].
    split; [apply lookup_insert_eq |]. cbn [bumped set_stats stats].
    split; [apply lookup_insert_eq |].
    split; intros ? ?; by rewrite lookup_insert_ne.
  - intros c' Hc'. eapply increment_stat_unknown; [done |].
    destruct (stats u !! c') eqn:E; [| done].
    exfalso. apply Hc', Hwf. eauto.
  - intros uid' c'. apply increment_stat_absent.
  - by apply increment_stats_counter with (u := u).
Qed.



(** *** The dispatcher *)

Lemma bind_ok {A B} (m : M A) (k : A -> M B) w a w' :
  m w = (Ok a, w') -> bind m k w = k a w'.
Proof. intros H. unfold bind. by rewrite H. Qed.

Lemma bind_raise {A B} (m : M A) (k : A -> M B) w x w' :
  m w = (Raise x, w') -> bind m k w = (Raise x, w').
Proof. intros H. unfold bind. by rewrite H. Qed.

Lemma is_user_registered_absent uid w :
  users w !! Py.str uid = None -> is_user_registered uid w = (Ok false, w).
Proof.
  intros H. unfold is_user_registered, get_user, get_users, bind, ret.
  by rewrite H.
Qed.

Lemma is_user_registered_present uid w u :
  users w !! Py.str uid = Some u -> is_user_registered uid w = (Ok true, w).
Proof.
  intros H. unfold is_user_registered, get_user, get_users, bind, ret.
  by rewrite H.
Qed.

Lemma get_user_language_present uid w u :
  users w !! Py.str uid = Some u ->
  get_user_language uid w = (Ok (language u), w).
Proof.
  intros H. unfold get_user_language, get_user, get_users, bind, ret.
  by rewrite H.
Qed.


(** Session flags. *)

Lemma flag_in_set_eq ss uid key b : flag_in (set_flag ss uid key b) uid key = b.
Proof.
  unfold flag_in, set_flag. rewrite lookup_insert_eq. cbn.
  by rewrite lookup_insert_eq.
Qed.

Lemma flag_in_set_ne ss uid key b key' :
  key ≠ key' ->
  flag_in (set_flag ss uid key b) uid key' = flag_in ss uid key'.
Proof.
  intros Hne. unfold flag_in, set_flag. rewrite lookup_insert_eq. cbn.
  by rewrite lookup_insert_ne.
Qed.

Lemma flag_in_set_other ss uid key b uid' key' :
  uid ≠ uid' ->
  flag_in (set_flag ss uid key b) uid' key' = flag_in ss uid' key'.
Proof.
  intros Hne. unfold flag_in, set_flag. by rewrite lookup_insert_ne.
Qed.

Lemma state_of_flags w uid s :
  state_of w uid = Some s ->
  flag w uid "awaiting_hashtag_create" = is_state s AwaitingHashtagCreate
  /\ flag w uid "awaiting_hashtag_delete" = is_state s AwaitingHashtagDelete
  /\ flag w uid "awaiting_category_import" = is_state s AwaitingCategoryImport
  /\ flag w uid "awaiting_language" = is_state s AwaitingLanguageChoice.
Proof.
  unfold state_of.
  destruct (flag w uid "awaiting_hashtag_create"),
           (flag w uid "awaiting_hashtag_delete"),
           (flag w uid "awaiting_category_import"),
           (flag w uid "awaiting_language"); intros [= <-]; done.
Qed.

Lemma flags_idle w uid :
  flag w uid "awaiting_hashtag_create" = false ->
  flag w uid "awaiting_hashtag_delete" = false ->
  flag w uid "awaiting_category_import" = false ->
  flag w uid "awaiting_language" = false ->
  state_of w uid = Some Idle.
Proof. unfold state_of. by intros -> -> -> ->. Qed.



(** The steps every message of a registered user starts with. *)
Lemma handle_message_registered e upd w u n :
  users w !! Py.str (eff_id upd) = Some u ->
  stats u !! "total_messages" = Some n ->
  handle_message e upd w =
    let uid := eff_id upd in
    let text := Py.strip (msg_text upd) in
    let w1 := after_activity uid u n w in
    if flag w uid "awaiting_hashtag_create" then handle_create_hashtag e upd w1
    else if flag w uid "awaiting_hashtag_delete" then handle_delete_hashtag e upd w1
    else if flag w uid "awaiting_category_import" then handle_import_list e upd w1
    else if flag w uid "awaiting_language" then handle_language_selection upd w1
    else match hashtags_of text with
         | _ :: _ => handle_tagged_note e upd text (language u) (hashtags_of text) w1
         | [] => menu_dispatch e upd (lower text) (language u) w1
         end.
Proof.
  intros Hu Hn. unfold handle_message.
  rewrite (bind_ok _ _ _ _ _ (is_user_registered_present _ _ _ Hu)).
  cbn [negb].
  rewrite (bind_ok _ _ _ _ _ (get_user_language_present _ _ _ Hu)).
  rewrite (bind_ok _ _ _ _ _ (update_user_activity_present _ _ _ _ Hu Hn)).
  cbn zeta. fold (after_activity (eff_id upd) u n w).
  change (flag w) with (flag (after_activity (eff_id upd) u n w)).
  generalize (after_activity (eff_id upd) u n w). intros w1.
  unfold user_data_get, bind.
  repeat (destruct (flag w1 _ _); [reflexivity |]).
  by destruct (hashtags_of _).
Qed.

Lemma after_activity_user uid u n w :
  users (after_activity uid u n w) !! Py.str uid
    = Some (touched (clock (reads w)) n u).
Proof. cbn. apply lookup_insert_eq. Qed.

Lemma touched_total t n u :
  stats (touched t n u) !! "total_messages" = Some (n + 1).
Proof. cbn. apply lookup_insert_eq. Qed.



(** *** Computations that leave the session flags alone *)

Lemma quiet_ret {A} (a : A) : quiet (ret a).
Proof.
  intros w. exists a, w, []. rewrite app_nil_r. by repeat split.
Qed.

Lemma quiet_bind {A B} (m : M A) (k : A -> M B) :
  quiet m -> (forall a, quiet (k a)) -> quiet (bind m k).
Proof.
  intros Hm Hk w.
  destruct (Hm w) as (a & w1 & evs1 & Hrun1 & Hs1 & Ht1 & Hf1).
  destruct (Hk a w1) as (b & w2 & evs2 & Hrun2 & Hs2 & Ht2 & Hf2).
  exists b, w2, (evs1 ++ evs2)%list.
  rewrite (bind_ok _ _ _ _ _ Hrun1).
  split; [done |]. split; [congruence |].
  split; [by rewrite Ht2, Ht1, app_assoc |].
  by apply Forall_app.
Qed.

Lemma quiet_emit ev : flow_event ev = true -> quiet (emit ev).
Proof.
  intros Hev w. eexists tt, _, [ev]. split; [reflexivity |].
  cbn. repeat split. by constructor.
Qed.

Lemma quiet_get_users : quiet get_users.
Proof.
  intros w. exists (users w), w, []. rewrite app_nil_r. by repeat split.
Qed.

Lemma quiet_put_users us : quiet (put_users us).
Proof.
  intros w. eexists tt, _, []. split; [reflexivity |].
  cbn. rewrite app_nil_r. by repeat split.
Qed.

Lemma quiet_datetime_now : quiet datetime_now.
Proof.
  intros w. eexists _, _, []. split; [reflexivity |].
  cbn. rewrite app_nil_r. by repeat split.
Qed.

Ltac quiet_step :=
  first
    [ apply quiet_ret
    | apply quiet_get_users
    | apply quiet_put_users
    | apply quiet_datetime_now
    | apply quiet_emit; reflexivity
    | apply quiet_bind; [| intros ?]
    | match goal with
      | |- quiet (if ?b then _ else _) => destruct b
      | |- quiet (match ?x with _ => _ end) => destruct x
      | |- quiet (let '(_, _) := ?x in _) => destruct x
      end ].

Lemma quiet_increment_stat uid c : quiet (increment_stat uid c).
Proof. unfold increment_stat, save_users. repeat quiet_step. Qed.

Lemma quiet_update_user_language uid lang :
  quiet (update_user_language uid lang).
Proof. unfold update_user_language, save_users. repeat quiet_step. Qed.

Lemma quiet_reply_text uid text kb : quiet (reply_text uid text kb).
Proof. unfold reply_text. repeat quiet_step. Qed.

Lemma quiet_create_hashtag e name description :
  quiet (create_hashtag e name description).
Proof. unfold create_hashtag. repeat quiet_step. Qed.

Lemma quiet_delete_hashtag e name : quiet (delete_hashtag e name).
Proof. unfold delete_hashtag. repeat quiet_step. Qed.

Lemma quiet_get_words_by_category e category :
  quiet (get_words_by_category e category).
Proof. unfold get_words_by_category. repeat quiet_step. Qed.

Lemma quiet_generate_pdf e words category :
  quiet (generate_pdf e words category).
Proof. unfold generate_pdf. repeat quiet_step. Qed.

Lemma quiet_send_pdf e uid lang text path words :
  quiet (send_pdf e uid lang text path words).
Proof.
  unfold send_pdf.
  apply quiet_bind; [apply quiet_increment_stat | intros _].
  repeat first [apply quiet_reply_text | quiet_step].
Qed.

Lemma quiet_after_clear (m : M unit) uid key w :
  quiet m ->
  exists w',
    bind (user_data_set uid key false) (fun _ => m) w = (Ok tt, w')
    /\ consumed uid key w w'.
Proof.
  intros Hm. unfold bind, user_data_set.
  destruct (Hm (World (users w) (set_flag (sessions w) uid key false)
                      (reads w) (trace w)))
    as ([] & w' & evs & Hrun & Hs & Ht & Hf).
  exists w'. split; [done |]. split; [done |]. by exists evs.
Qed.

Ltac quiet_flow :=
  repeat first
    [ apply quiet_reply_text
    | apply quiet_increment_stat
    | apply quiet_update_user_language
    | apply quiet_create_hashtag
    | apply quiet_delete_hashtag
    | apply quiet_get_words_by_category
    | apply quiet_generate_pdf
    | apply quiet_send_pdf
    | quiet_step ].

Lemma handle_create_hashtag_pending e upd w u :
  users w !! Py.str (eff_id upd) = Some u ->
  flag w (eff_id upd) "awaiting_hashtag_create" = true ->
  exists w',
    handle_create_hashtag e upd w = (Ok tt, w')
    /\ consumed (eff_id upd) "awaiting_hashtag_create" w w'.
Proof.
  intros Hu Hflag. unfold handle_create_hashtag.
  rewrite (bind_ok _ _ _ _ _ (get_user_language_present _ _ _ Hu)).
  unfold user_data_get at 1. unfold bind at 1. rewrite Hflag.
  apply quiet_after_clear. quiet_flow.
Qed.

Lemma handle_delete_hashtag_pending e upd w u :
  users w !! Py.str (eff_id upd) = Some u ->
  flag w (eff_id upd) "awaiting_hashtag_delete" = true ->
  exists w',
    handle_delete_hashtag e upd w = (Ok tt, w')
    /\ consumed (eff_id upd) "awaiting_hashtag_delete" w w'.
Proof.
  intros Hu Hflag. unfold handle_delete_hashtag.
  rewrite (bind_ok _ _ _ _ _ (get_user_language_present _ _ _ Hu)).
  unfold user_data_get at 1. unfold bind at 1. rewrite Hflag.
  apply quiet_after_clear. quiet_flow.
Qed.

Lemma handle_import_list_pending e upd w u :
  users w !! Py.str (eff_id upd) = Some u ->
  flag w (eff_id upd) "awaiting_category_import" = true ->
  exists w',
    handle_import_list e upd w = (Ok tt, w')
    /\ consumed (eff_id upd) "awaiting_category_import" w w'.
Proof.
  intros Hu Hflag. unfold handle_import_list.
  rewrite (bind_ok _ _ _ _ _ (get_user_language_present _ _ _ Hu)).
  unfold user_data_get at 1. unfold bind at 1. rewrite Hflag.
  apply quiet_after_clear. quiet_flow.
Qed.

Lemma handle_language_selection_pending upd w u n :
  users w !! Py.str (eff_id upd) = Some u ->
  stats u !! "total_messages" = Some n ->
  flag w (eff_id upd) "awaiting_language" = true ->
  exists w',
    handle_language_selection upd w = (Ok tt, w')
    /\ consumed (eff_id upd) "awaiting_language"
         (after_activity (eff_id upd) u n w) w'.
Proof.
  intros Hu Hn Hflag. unfold handle_language_selection.
  rewrite (bind_ok _ _ _ _ _ (is_user_registered_present _ _ _ Hu)).
  cbn [negb].
  rewrite (bind_ok _ _ _ _ _ (update_user_activity_present _ _ _ _ Hu Hn)).
  cbn zeta. fold (after_activity (eff_id upd) u n w).
  unfold user_data_get at 1. unfold bind at 1.
  change (flag (after_activity (eff_id upd) u n w)) with (flag w).
  rewrite Hflag.
  apply quiet_after_clear. quiet_flow.
Qed.

Lemma consumed_idle uid s w0 w w' :
  sessions w = sessions w0 ->
  state_of w0 uid = Some s -> s ≠ Idle ->
  consumed uid (flag_of_state s) w w' ->
  state_of w' uid = Some Idle.
Proof.
  intros Hss Hst Hs [Hsess _].
  destruct (state_of_flags _ _ _ Hst) as (Hc & Hd & Hi & Hl).
  unfold flag in *. rewrite <- Hss in Hc, Hd, Hi, Hl.
  apply flags_idle; unfold flag; rewrite Hsess;
    destruct s; try done; cbn in *;
    first [ apply flag_in_set_eq | by rewrite flag_in_set_ne ].
Qed.

Lemma pending_flow_run e upd w u n s :
  users w !! Py.str (eff_id upd) = Some u ->
  stats u !! "total_messages" = Some n ->
  state_of w (eff_id upd) = Some s ->
  s ≠ Idle ->
  exists w' evs,
    handle_message e upd w = (Ok tt, w')
    /\ handle_message e upd w
         = flow_handler e s upd (after_activity (eff_id upd) u n w)
    /\ state_of w' (eff_id upd) = Some Idle
    /\ trace w' = (trace (after_activity (eff_id upd) u n w) ++ evs)%list
    /\ Forall (fun ev => flow_event ev = true) evs.
Proof.
  intros Hu Hn Hst Hs.
  destruct (state_of_flags _ _ _ Hst) as (Hc & Hd & Hi & Hl).
  rewrite (handle_message_registered _ _ _ _ _ Hu Hn). cbn zeta.
  rewrite Hc, Hd, Hi, Hl.
  pose proof (after_activity_user (eff_id upd) u n w) as Hu1.
  pose proof (touched_total (clock (reads w)) n u) as Hn1.
  set (w1 := after_activity (eff_id upd) u n w) in *.
  assert (Hss : sessions w1 = sessions w) by reflexivity.
  destruct s; [done | | | |]; cbn [is_state flow_handler].
  - destruct (handle_create_hashtag_pending e upd w1 _ Hu1 Hc)
      as (w' & Hrun & Hcons).
    pose proof (consumed_idle _ AwaitingHashtagCreate _ _ _ Hss Hst Hs Hcons).
    destruct Hcons as (_ & evs & Ht & Hf). by exists w', evs.
  - destruct (handle_delete_hashtag_pending e upd w1 _ Hu1 Hd)
      as (w' & Hrun & Hcons).
    pose proof (consumed_idle _ AwaitingHashtagDelete _ _ _ Hss Hst Hs Hcons).
    destruct Hcons as (_ & evs & Ht & Hf). by exists w', evs.
  - destruct (handle_import_list_pending e upd w1 _ Hu1 Hi)
      as (w' & Hrun & Hcons).
    pose proof (consumed_idle _ AwaitingCategoryImport _ _ _ Hss Hst Hs Hcons).
    destruct Hcons as (_ & evs & Ht & Hf). by exists w', evs.
  - destruct (handle_language_selection_pending upd w1 _ _ Hu1 Hn1 Hl)
      as (w' & Hrun & Hcons).
    assert (Hss2 : sessions (after_activity (eff_id upd)
                      (touched (clock (reads w)) n u) (n + 1) w1) = sessions w)
      by reflexivity.
    pose proof (consumed_idle _ AwaitingLanguageChoice _ _ _ Hss2 Hst Hs Hcons).
    destruct Hcons as (_ & evs & Ht & Hf).
    exists w', (SaveUsers (users (after_activity (eff_id upd)
                      (touched (clock (reads w)) n u) (n + 1) w1)) :: evs).
    split; [done |]. split; [done |]. split; [done |].
    split; [| by constructor].
    rewrite Ht. cbn [trace after_activity]. by rewrite <- !app_assoc.
Qed.

(** C4: while a flow is pending, the next message of a registered user
    is handed to that flow's handler right after the activity update,
    whatever its text; the handler clears the flag, so the session ends
    in [Idle], and nothing the tagged-note branch or a menu entry would
    do (an item post, a category listing, a user sync) happens. *)
Theorem pending_flow_consumes_message e upd w u n s :
  users w !! Py.str (eff_id upd) = Some u ->
  stats u !! "total_messages" = Some n ->
  state_of w (eff_id upd) = Some s ->
  s ≠ Idle ->
  exists w' evs,
    handle_message e upd w = (Ok tt, w')
    /\ handle_message e upd w
         = flow_handler e s upd (after_activity (eff_id upd) u n w)
    /\ state_of w' (eff_id upd) = Some Idle
    /\ trace w' = (trace (after_activity (eff_id upd) u n w) ++ evs)%list
    /\ Forall (fun ev => flow_event ev = true) evs.
Proof. apply pending_flow_run. Qed.

(** *** At most one flow is pending *)

Lemma still_ret {A} (a : A) : still (ret a).
Proof. by intros w. Qed.

Lemma still_raise {A} x : still (@raise A x).
Proof. by intros w. Qed.

Lemma still_bind {A B} (m : M A) (k : A -> M B) :
  still m -> (forall a, still (k a)) -> still (bind m k).
Proof.
  intros Hm Hk w. unfold bind. specialize (Hm w).
  destruct (m w) as [[a | x] w1]; cbn in *; [| done].
  by rewrite Hk.
Qed.

Lemma still_emit ev : still (emit ev).
Proof. by intros w. Qed.

Lemma still_get_users : still get_users.
Proof. by intros w. Qed.

Lemma still_put_users us : still (put_users us).
Proof. by intros w. Qed.

Lemma still_datetime_now : still datetime_now.
Proof. by intros w. Qed.

Lemma still_user_data_get uid key : still (user_data_get uid key).
Proof. by intros w. Qed.

Ltac still_step :=
  first
    [ apply still_ret
    | apply still_raise
    | apply still_emit
    | apply still_get_users
    | apply still_put_users
    | apply still_datetime_now
    | apply still_user_data_get
    | apply still_bind; [| intros ?]
    | match goal with
      | |- still (if ?b then _ else _) => destruct b
      | |- still (match ?x with _ => _ end) => destruct x
      | |- still (let '(_, _) := ?x in _) => destruct x
      end ].

Ltac still_tac :=
  repeat first
    [ still_step
    | progress cbv zeta
    | progress unfold save_users, reply_text, get_user, get_user_language,
        is_user_registered, register_user, update_user_language,
        update_user_activity, increment_stat, send_message_to_website,
        sync_user_to_backend, create_hashtag, delete_hashtag, get_hashtags,
        get_words_by_category, generate_pdf, send_pdf, handle_open_website,
        register_command, profile_command, help_command, handle_tagged_note ].

Lemma still_register_command e upd : still (register_command e upd).
Proof. still_tac. Qed.

Lemma still_reply_text uid text kb : still (reply_text uid text kb).
Proof. still_tac. Qed.

Lemma once_still uid {A} (m : M A) : still m -> once uid m.
Proof. intros Hm w. by left. Qed.

Lemma once_set uid key b : once uid (user_data_set uid key b).
Proof. intros w. right. by exists key, b. Qed.

Lemma once_bind_l uid {A B} (m : M A) (k : A -> M B) :
  once uid m -> (forall a, still (k a)) -> once uid (bind m k).
Proof.
  intros Hm Hk w. unfold bind. specialize (Hm w).
  destruct (m w) as [[a | x] w1]; cbn in *; [| done].
  destruct Hm as [Hm | (key & b & Hm)]; [left | right; exists key, b];
    by rewrite Hk.
Qed.

Lemma once_bind_r uid {A B} (m : M A) (k : A -> M B) :
  still m -> (forall a, once uid (k a)) -> once uid (bind m k).
Proof.
  intros Hm Hk w. unfold bind. specialize (Hm w).
  destruct (m w) as [[a | x] w1]; cbn in *; [| by left].
  rewrite <- Hm. apply Hk.
Qed.

Ltac once_step :=
  match goal with
  | |- once _ (bind (user_data_set _ _ _) _) =>
      apply once_bind_l; [apply once_set | intros ?; solve [still_tac]]
  | |- once _ (user_data_set _ _ _) => apply once_set
  | |- once _ (bind _ _) => apply once_bind_r; [solve [still_tac] | intros ?]
  | |- once _ (if ?b then _ else _) => destruct b
  | |- once _ (match ?x with _ => _ end) => destruct x
  | |- once _ _ => apply once_still; solve [still_tac]
  end.

Ltac once_tac :=
  repeat first
    [ progress cbv zeta
    | once_step
    | progress unfold handle_create_hashtag, handle_delete_hashtag,
        handle_import_list, handle_language_selection, menu_dispatch ].

Lemma once_handle_message e upd : once (eff_id upd) (handle_message e upd).
Proof. unfold handle_message. once_tac. Qed.

Lemma state_of_sessions w w' uid :
  sessions w' = sessions w -> state_of w' uid = state_of w uid.
Proof. intros Hs. unfold state_of, flag. by rewrite Hs. Qed.

Lemma state_of_set_other w w' uid uid0 key b :
  uid0 ≠ uid ->
  sessions w' = set_flag (sessions w) uid key b ->
  state_of w' uid0 = state_of w uid0.
Proof.
  intros Hne Hs. unfold state_of, flag. rewrite Hs.
  by rewrite !flag_in_set_other.
Qed.

Lemma state_of_set_idle w w' uid key b :
  state_of w uid = Some Idle ->
  sessions w' = set_flag (sessions w) uid key b ->
  is_Some (state_of w' uid).
Proof.
  intros Hst Hs.
  destruct (state_of_flags _ _ _ Hst) as (Hc & Hd & Hi & Hl).
  unfold flag in *. cbn [is_state] in *.
  unfold state_of, flag. rewrite Hs.
  destruct (decide (key = "awaiting_hashtag_create")) as [-> | Hk1];
    [rewrite flag_in_set_eq, !flag_in_set_ne, Hd, Hi, Hl by done;
     destruct b; eauto |].
  destruct (decide (key = "awaiting_hashtag_delete")) as [-> | Hk2];
    [rewrite flag_in_set_eq, !flag_in_set_ne, Hc, Hi, Hl by done;
     destruct b; eauto |].
  destruct (decide (key = "awaiting_category_import")) as [-> | Hk3];
    [rewrite flag_in_set_eq, !flag_in_set_ne, Hc, Hd, Hl by done;
     destruct b; eauto |].
  destruct (decide (key = "awaiting_language")) as [-> | Hk4];
    [rewrite flag_in_set_eq, !flag_in_set_ne, Hc, Hd, Hi by done;
     destruct b; eauto |].
  rewrite !flag_in_set_ne, Hc, Hd, Hi, Hl by done. eauto.
Qed.

Lemma update_user_activity_raises uid w u :
  users w !! Py.str uid = Some u ->
  stats u !! "total_messages" = None ->
  exists w',
    update_user_activity uid w = (Raise (KeyError "total_messages"), w')
    /\ sessions w' = sessions w.
Proof.
  intros Hu Hn. unfold update_user_activity, bind, get_users. rewrite Hu.
  cbn. rewrite Hn. eauto.
Qed.

(** One message keeps every session in one of the five states: a pending
    flow is consumed, and from [Idle] at most one flag is raised. *)
Lemma handle_message_one_flow e upd w uid :
  is_Some (state_of w uid) ->
  is_Some (state_of (handle_message e upd w).2 uid).
Proof.
  intros Hst.
  destruct (decide (uid = eff_id upd)) as [-> | Hne].
  - destruct (users w !! Py.str (eff_id upd)) as [u |] eqn:Hu.
    + destruct (stats u !! "total_messages") as [n |] eqn:Hn.
      * destruct Hst as [s Hs].
        assert (s = Idle \/ s ≠ Idle) as [-> | Hpend]
          by (destruct s; (by left) || (by right)).
        -- destruct (once_handle_message e upd w) as [Hsame | (key & b & Hset)].
           ++ rewrite (state_of_sessions _ _ _ Hsame). eauto.
           ++ by apply (state_of_set_idle w _ _ key b).
        -- destruct (pending_flow_run e upd w u n s Hu Hn Hs Hpend)
             as (w' & evs & -> & _ & Hidle & _).
           cbn. rewrite Hidle. eauto.
      * unfold handle_message.
        rewrite (bind_ok _ _ _ _ _ (is_user_registered_present _ _ _ Hu)).
        cbn [negb].
        rewrite (bind_ok _ _ _ _ _ (get_user_language_present _ _ _ Hu)).
        destruct (update_user_activity_raises _ _ _ Hu Hn) as (w' & Hrun & Hs).
        rewrite (bind_raise _ _ _ _ _ Hrun). cbn.
        by rewrite (state_of_sessions _ _ _ Hs).
    + unfold handle_message.
      rewrite (bind_ok _ _ _ _ _ (is_user_registered_absent _ _ Hu)).
      cbn [negb].
      destruct (String.eqb _ _).
      * by rewrite (state_of_sessions _ _ _ (still_register_command e upd w)).
      * by rewrite (state_of_sessions _ _ _ (still_reply_text _ _ _ w)).
  - destruct (once_handle_message e upd w) as [Hsame | (key & b & Hset)].
    + by rewrite (state_of_sessions _ _ _ Hsame).
    + by rewrite (state_of_set_other _ _ _ _ _ _ Hne Hset).
Qed.

(** From a start with no session dictionary, after any sequence of
    messages from any users, every session is in one of the five states:
    two flags are never pending together. *)
Lemma one_flow_at_a_time l : forall w,
  (forall uid, is_Some (state_of w uid)) ->
  forall uid, is_Some (state_of (handle_messages l w) uid).
Proof.
  induction l as [| [e upd] rest IH]; intros w Hw uid; [apply Hw |].
  cbn [handle_messages]. apply IH. intros uid'.
  by apply handle_message_one_flow.
Qed.

Lemma fresh_sessions_idle w uid : sessions w = ∅ -> state_of w uid = Some Idle.
Proof.
  intros Hs. apply flags_idle; unfold flag, flag_in; by rewrite Hs, lookup_empty.
Qed.

(** X23: started with no session dictionary, after any sequence of
    messages from any senders and whatever the remote service answers,
    every session is in one of the five states: two flags are never
    pending together. *)
Corollary sessions_stay_single l w uid :
  sessions w = ∅ -> is_Some (state_of (handle_messages l w) uid).
Proof.
  intros Hs. apply one_flow_at_a_time. intros uid'.
  rewrite (fresh_sessions_idle _ _ Hs). eauto.
Qed.

(** *** Tokens *)







(** *** The tagged note *)







(** *** The create flow *)



(** *** The import flow *)







(** *** The store: language, preferences, deletion, profile *)

Lemma update_user_language_present uid lang w u :
  users w !! Py.str uid = Some u ->
  update_user_language uid lang w =
    let us := <[Py.str uid :=
                  set_last_activity (clock (reads w)) (set_language lang u)]>
                (users w) in
    (Ok tt, World us (sessions w) (S (reads w)) (trace w ++ [SaveUsers us])).
Proof.
  intros H. unfold update_user_language, bind, get_users. rewrite H. reflexivity.
Qed.

Lemma update_user_language_absent uid lang w :
  users w !! Py.str uid = None -> update_user_language uid lang w = (Ok tt, w).
Proof.
  intros H. unfold update_user_language, bind, get_users. rewrite H. reflexivity.
Qed.

Lemma get_user_language_absent uid w :
  users w !! Py.str uid = None -> get_user_language uid w = (Ok "en", w).
Proof.
  intros H. unfold get_user_language, get_user, get_users, bind, ret.
  by rewrite H.
Qed.


Lemma delete_user_present uid w u :
  users w !! Py.str uid = Some u ->
  delete_user uid w =
    let us := delete (Py.str uid) (users w) in
    (Ok true, World us (sessions w) (reads w) (trace w ++ [SaveUsers us])).
Proof.
  intros H. unfold delete_user, bind, get_users. rewrite H. reflexivity.
Qed.

Lemma delete_user_absent uid w :
  users w !! Py.str uid = None -> delete_user uid w = (Ok false, w).
Proof.
  intros H. unfold delete_user, bind, get_users. rewrite H. reflexivity.
Qed.

(** X2: [delete_user] on a registered id returns [True] and removes that
    record and no other (the count drops by one); the id then reads as
    unregistered, a second deletion returns [False] and changes nothing,
    and registering the id again starts from zeroed counters. *)
Theorem delete_user_unregisters uid w u un fn ln :
  users w !! Py.str uid = Some u ->
  exists w',
    delete_user uid w = (Ok true, w')
    /\ users w' !! Py.str uid = None
    /\ (forall k, k ≠ Py.str uid -> users w' !! k = users w !! k)
    /\ S (size (users w')) = size (users w)
    /\ is_user_registered uid w' = (Ok false, w')
    /\ delete_user uid w' = (Ok false, w')
    /\ exists w'' r,
         register_user uid un fn ln w' = (Ok true, w'')
         /\ users w'' !! Py.str uid = Some r
         /\ stats r = initial_stats
         /\ language r = "en".
Proof.
  intros Hu. rewrite (delete_user_present _ _ _ Hu). cbn zeta.
  eexists. split; [reflexivity |]. cbn [users].
  assert (Hgone : delete (Py.str uid) (users w) !! Py.str uid = None)
    by apply lookup_delete_eq.
  split; [exact Hgone |].
  split; [intros k Hk; by rewrite lookup_delete_ne |].
  split.
  { rewrite map_size_delete_Some by eauto.
    assert (size (users w) ≠ 0%nat); [| lia].
    intros Hz. apply map_size_empty_iff in Hz. rewrite Hz in Hu.
    by rewrite lookup_empty in Hu. }
  split; [by apply is_user_registered_absent |].
  split; [by apply delete_user_absent |].
  rewrite register_user_absent by exact Hgone. cbn zeta.
  eexists _, _. split; [reflexivity |]. cbn [users].
  split; [apply lookup_insert_eq |]. by split.
Qed.

(** X3: registering an absent id and deleting it again gives back the
    store as it was, record for record, and the same count. *)
Theorem register_then_delete_restores uid un fn ln w :
  users w !! Py.str uid = None ->
  exists w1 w2,
    register_user uid un fn ln w = (Ok true, w1)
    /\ get_users_count w1 = (Ok (S (size (users w))), w1)
    /\ delete_user uid w1 = (Ok true, w2)
    /\ users w2 = users w
    /\ get_users_count w2 = (Ok (size (users w)), w2)
    /\ sessions w2 = sessions w.
Proof.
  intros Hu. rewrite (register_user_absent _ _ _ _ _ Hu). cbn zeta.
  eexists _, _. split; [reflexivity |].
  split.
  { unfold get_users_count, bind, get_users, ret. cbn [users].
    by rewrite map_size_insert_None. }
  erewrite delete_user_present by (cbn [users]; apply lookup_insert_eq).
  cbn zeta. split; [reflexivity |]. cbn [users sessions].
  rewrite delete_insert_id by exact Hu.
  split; [reflexivity |]. split; [reflexivity |]. reflexivity.
Qed.

Lemma update_user_preference_present uid p v w u :
  users w !! Py.str uid = Some u ->
  update_user_preference uid p v w =
    let us := <[Py.str uid :=
                  set_preferences (<[p := v]> (preferences u)) u]> (users w) in
    (Ok tt, World us (sessions w) (reads w) (trace w ++ [SaveUsers us])).
Proof.
  intros H. unfold update_user_preference, bind, get_users. rewrite H.
  reflexivity.
Qed.

(** X4: [update_user_preference] writes the one flag it names: the flag
    then reads as the value given, every other preference, the counters,
    the language and the timestamps of the record stay, no other record
    changes, and for an absent id nothing happens. *)
Theorem preference_written_is_read uid p v w u :
  users w !! Py.str uid = Some u ->
  exists w' u',
    update_user_preference uid p v w = (Ok tt, w')
    /\ users w' !! Py.str uid = Some u'
    /\ preferences u' !! p = Some v
    /\ (forall q, q ≠ p -> preferences u' !! q = preferences u !! q)
    /\ stats u' = stats u
    /\ language u' = language u
    /\ last_activity u' = last_activity u
    /\ (forall k, k ≠ Py.str uid -> users w' !! k = users w !! k)
    /\ (forall uid0 q b w0,
          users w0 !! Py.str uid0 = None ->
          update_user_preference uid0 q b w0 = (Ok tt, w0)).
Proof.
  intros Hu. rewrite (update_user_preference_present _ _ _ _ _ Hu). cbn zeta.
  eexists _, _. split; [reflexivity |]. cbn [users].
  split; [apply lookup_insert_eq |]. cbn [set_preferences preferences].
  split; [apply lookup_insert_eq |].
  split; [intros q Hq; by rewrite lookup_insert_ne |].
  repeat (split; [reflexivity |]).
  split.
  - intros k Hk. by rewrite lookup_insert_ne.
  - intros uid0 q b w0 H0.
    unfold update_user_preference, bind, get_users. by rewrite H0.
Qed.

(** X5: the [days_registered] of a profile is the number of whole days
    between registration and the clock reading taken: it is not negative
    when the clock is not behind the registration time, and the elapsed
    time lies in that day; the counters of the profile are those
    [get_user_stats] returns; an absent id gives no profile and reads no
    clock. *)
Theorem profile_days_registered uid w u :
  users w !! Py.str uid = Some u ->
  exists w' p,
    get_user_profile uid w = (Ok (Some p), w')
    /\ users w' = users w
    /\ trace w' = trace w
    /\ p_stats p = stats u
    /\ get_user_stats uid w' = (Ok (p_stats p), w')
    /\ p_language p = language u
    /\ p_days_registered p * microseconds_per_day
         <= clock (reads w) - registered_at u
         < (p_days_registered p + 1) * microseconds_per_day
    /\ (registered_at u <= clock (reads w) -> 0 <= p_days_registered p)
    /\ (forall uid0 w0,
          users w0 !! Py.str uid0 = None ->
          get_user_profile uid0 w0 = (Ok None, w0)).
Proof.
  intros Hu. unfold get_user_profile, get_user, get_users, bind, ret,
    datetime_now. cbn. rewrite Hu. cbn.
  eexists _, _. split; [reflexivity |]. cbn.
  do 3 (split; [reflexivity |]).
  split; [unfold get_user_stats, get_user, get_users, bind, ret; cbn;
          by rewrite Hu |].
  split; [reflexivity |].
  assert (HD : 0 < microseconds_per_day) by reflexivity.
  split; [| split].
  - pose proof (Z.mul_div_le (clock (reads w) - registered_at u) _ HD).
    pose proof (Z.mul_succ_div_gt (clock (reads w) - registered_at u) _ HD).
    lia.
  - intros Hle. apply Z.div_pos; lia.
  - intros uid0 w0 H0. by rewrite H0.
Qed.

(** *** What every handler respects *)

Section Respects.

Variable R : world -> world -> Prop.
Variable upd : update.

Hypothesis R_refl : forall w, R w w.
Hypothesis R_trans : forall w1 w2 w3, R w1 w2 -> R w2 w3 -> R w1 w3.
Hypothesis R_emit : forall ev, respects R (emit ev).
Hypothesis R_now : respects R datetime_now.
Hypothesis R_set : forall key b, respects R (user_data_set (eff_id upd) key b).
Hypothesis R_register :
  forall un fn ln, respects R (register_user (eff_id upd) un fn ln).
Hypothesis R_language :
  forall lang, respects R (update_user_language (eff_id upd) lang).
Hypothesis R_activity : respects R (update_user_activity (eff_id upd)).
Hypothesis R_increment :
  forall c, respects R (increment_stat (eff_id upd) c).

Lemma respects_ret {A} (a : A) : respects R (ret a).
Proof. intros w. apply R_refl. Qed.

Lemma respects_raise {A} x : respects R (@raise A x).
Proof. intros w. apply R_refl. Qed.

Lemma respects_get_users : respects R get_users.
Proof. intros w. apply R_refl. Qed.

Lemma respects_user_data_get uid key : respects R (user_data_get uid key).
Proof. intros w. apply R_refl. Qed.

Lemma respects_bind {A B} (m : M A) (k : A -> M B) :
  respects R m -> (forall a, respects R (k a)) -> respects R (bind m k).
Proof.
  intros Hm Hk w. unfold bind. specialize (Hm w).
  destruct (m w) as [[a | x] w1]; cbn in *; [| done].
  eapply R_trans; [exact Hm | apply Hk].
Qed.

Ltac respects_step :=
  first
    [ apply respects_ret
    | apply respects_raise
    | apply respects_get_users
    | apply respects_user_data_get
    | apply R_emit
    | apply R_now
    | apply R_set
    | apply R_register
    | apply R_language
    | apply R_activity
    | apply R_increment
    | apply respects_bind; [| intros ?]
    | match goal with
      | |- respects _ (if ?b then _ else _) => destruct b
      | |- respects _ (match ?x with _ => _ end) => destruct x
      | |- respects _ (let '(_, _) := ?x in _) => destruct x
      end ].

Ltac respects_tac :=
  repeat first
    [ respects_step
    | progress cbv zeta
    | progress unfold reply_text, get_user, get_user_language,
        is_user_registered, send_message_to_website, sync_user_to_backend,
        create_hashtag, delete_hashtag, get_hashtags, get_words_by_category,
        generate_pdf, send_pdf, handle_open_website, register_command,
        profile_command, help_command, handle_tagged_note,
        handle_create_hashtag, handle_delete_hashtag, handle_import_list,
        handle_language_selection, menu_dispatch ].

Lemma respects_handle_message e : respects R (handle_message e upd).
Proof. unfold handle_message. respects_tac. Qed.

End Respects.

Lemma carried_over_refl u : carried_over u u.
Proof.
  repeat split; try done.
  intros c n n' Hn Hn'. assert (n = n') by congruence. lia.
Qed.

Lemma carried_over_trans u1 u2 u3 :
  carried_over u1 u2 -> carried_over u2 u3 -> carried_over u1 u3.
Proof.
  intros (Ha1 & Ha2 & Ha3 & Ha4 & Ha5 & Ha6 & Ha7 & Ha8)
         (Hb1 & Hb2 & Hb3 & Hb4 & Hb5 & Hb6 & Hb7 & Hb8).
  repeat split; try congruence.
  - intros H3. by apply Ha7, Hb7.
  - intros H1. by apply Hb7, Ha7.
  - intros c n n' Hn Hn'.
    destruct (proj2 (Ha7 c)) as [m Hm]; [eauto |].
    specialize (Ha8 c n m Hn Hm). specialize (Hb8 c m n' Hm Hn'). lia.
Qed.

Lemma carried_over_stat u c n v :
  stats u !! c = Some n -> n <= v ->
  carried_over u (set_stats (<[c := v]> (stats u)) u).
Proof.
  intros Hc Hle. repeat split; try done; cbn.
  - destruct (decide (c = c0)) as [<- | Hne]; [eauto |].
    by rewrite lookup_insert_ne.
  - destruct (decide (c = c0)) as [<- | Hne];
      [by rewrite lookup_insert_eq | by rewrite lookup_insert_ne].
  - intros c' m m' Hm. destruct (decide (c = c')) as [<- | Hne].
    + rewrite lookup_insert_eq. intros [= <-]. congruence.
    + rewrite lookup_insert_ne by done. intros Hm'.
      assert (m = m') by congruence. lia.
Qed.

Lemma rewrites_register_user uid un fn ln w :
  rewrites uid w (register_user uid un fn ln w).2.
Proof.
  destruct (users w !! Py.str uid) as [u |] eqn:Hu.
  - rewrite (register_user_present _ _ _ _ _ _ Hu). split; [done | by left].
  - rewrite (register_user_absent _ _ _ _ _ Hu). split; [done |].
    right. eexists. split; [reflexivity |]. intros u Hu'. congruence.
Qed.

Lemma rewrites_update_user_language uid lang w :
  rewrites uid w (update_user_language uid lang w).2.
Proof.
  destruct (users w !! Py.str uid) as [u |] eqn:Hu.
  - rewrite (update_user_language_present _ _ _ _ Hu). split; [done |].
    right. eexists. split; [reflexivity |]. intros u0 Hu0. assert (u0 = u) as -> by congruence.
    exact (carried_over_refl u).
  - rewrite (update_user_language_absent _ _ _ Hu). split; [done | by left].
Qed.

Lemma rewrites_update_user_activity uid w :
  rewrites uid w (update_user_activity uid w).2.
Proof.
  destruct (users w !! Py.str uid) as [u |] eqn:Hu.
  - destruct (stats u !! "total_messages") as [n |] eqn:Hn.
    + rewrite (update_user_activity_present _ _ _ _ Hu Hn). split; [done |].
      right. eexists. split; [reflexivity |]. intros u0 Hu0. assert (u0 = u) as -> by congruence.
      apply (carried_over_trans _ (set_last_activity (clock (reads w)) u));
        [exact (carried_over_refl u) |].
      apply (carried_over_stat (set_last_activity _ u) _ n); [done | lia].
    + unfold update_user_activity, bind, get_users. rewrite Hu. cbn.
      rewrite Hn. cbn. split; [done |].
      right. eexists. split; [reflexivity |]. intros u0 Hu0. assert (u0 = u) as -> by congruence.
      exact (carried_over_refl u).
  - rewrite (update_user_activity_absent _ _ Hu). split; [done | by left].
Qed.

Lemma rewrites_increment_stat uid c w :
  rewrites uid w (increment_stat uid c w).2.
Proof.
  destruct (users w !! Py.str uid) as [u |] eqn:Hu.
  - destruct (stats u !! c) as [n |] eqn:Hc.
    + rewrite (increment_stat_present _ _ _ _ _ Hu Hc). split; [done |].
      right. eexists. split; [reflexivity |]. intros u0 Hu0. assert (u0 = u) as -> by congruence.
      apply carried_over_stat with (n := n); [done | lia].
    + rewrite (increment_stat_unknown _ _ _ _ Hu Hc). split; [done | by left].
  - rewrite (increment_stat_absent _ _ _ Hu). split; [done | by left].
Qed.

Lemma rewrites_others_untouched uid w w' :
  rewrites uid w w' -> others_untouched uid w w'.
Proof.
  intros [Hs [Hu | (u' & Hu & _)]]; (split; [| by rewrite Hs]);
    intros k Hk; rewrite Hu; [done | by rewrite lookup_insert_ne].
Qed.

Lemma rewrites_records_kept uid w w' : rewrites uid w w' -> records_kept w w'.
Proof.
  intros [_ [Hu | (u' & Hu & Hcar)]] k u Hk; rewrite Hu.
  - exists u. split; [done | apply carried_over_refl].
  - destruct (decide (k = Py.str uid)) as [-> | Hne].
    + exists u'. rewrite lookup_insert_eq. split; [done | by apply Hcar].
    + exists u. rewrite lookup_insert_ne by done.
      split; [done | apply carried_over_refl].
Qed.

Lemma others_untouched_refl uid w : others_untouched uid w w.
Proof. by split. Qed.

Lemma others_untouched_trans uid w1 w2 w3 :
  others_untouched uid w1 w2 -> others_untouched uid w2 w3 ->
  others_untouched uid w1 w3.
Proof.
  intros [Ha Hb] [Hc Hd]. split.
  - intros k Hk. by rewrite Hc, Ha.
  - intros uid0 H0. by rewrite Hd, Hb.
Qed.

Lemma records_kept_refl w : records_kept w w.
Proof. intros k u Hk. exists u. split; [done | apply carried_over_refl]. Qed.

Lemma records_kept_trans w1 w2 w3 :
  records_kept w1 w2 -> records_kept w2 w3 -> records_kept w1 w3.
Proof.
  intros H12 H23 k u Hk.
  destruct (H12 k u Hk) as (u2 & Hk2 & Hc2).
  destruct (H23 k u2 Hk2) as (u3 & Hk3 & Hc3).
  exists u3. split; [done | by apply carried_over_trans with u2].
Qed.

Lemma others_untouched_by_message e upd w :
  others_untouched (eff_id upd) w (handle_message e upd w).2.
Proof.
  apply (respects_handle_message (others_untouched (eff_id upd)) upd).
  - apply others_untouched_refl.
  - apply others_untouched_trans.
  - intros ev w0. exact (others_untouched_refl _ w0).
  - intros w0. exact (others_untouched_refl _ w0).
  - intros key b w0. split; [done |].
    intros uid0 H0. cbn. unfold set_flag. by rewrite lookup_insert_ne.
  - intros un fn ln w0. apply rewrites_others_untouched, rewrites_register_user.
  - intros lang w0.
    apply rewrites_others_untouched, rewrites_update_user_language.
  - intros w0. apply rewrites_others_untouched, rewrites_update_user_activity.
  - intros c w0. apply rewrites_others_untouched, rewrites_increment_stat.
Qed.

Lemma records_kept_by_message e upd w :
  records_kept w (handle_message e upd w).2.
Proof.
  apply (respects_handle_message records_kept upd).
  - apply records_kept_refl.
  - apply records_kept_trans.
  - intros ev w0. exact (records_kept_refl w0).
  - intros w0. exact (records_kept_refl w0).
  - intros key b w0. exact (records_kept_refl w0).
  - intros un fn ln w0.
    apply (rewrites_records_kept (eff_id upd)), rewrites_register_user.
  - intros lang w0.
    apply (rewrites_records_kept (eff_id upd)), rewrites_update_user_language.
  - intros w0.
    apply (rewrites_records_kept (eff_id upd)), rewrites_update_user_activity.
  - intros c w0.
    apply (rewrites_records_kept (eff_id upd)), rewrites_increment_stat.
Qed.

(** X6: messages sent by other users never touch a user's record or
    session: after any sequence of messages none of which comes from
    [uid], the record stored for [uid] and the session dictionary of
    [uid] are what they were. *)
Theorem other_senders_leave_user_alone l : forall w uid,
  Forall (fun p => eff_id p.2 ≠ uid) l ->
  users (handle_messages l w) !! Py.str uid = users w !! Py.str uid
  /\ sessions (handle_messages l w) !! uid = sessions w !! uid.
Proof.
  induction l as [| [e upd] rest IH]; intros w uid Hl; [done |].
  apply Forall_cons in Hl as [Hne Hrest]. cbn in Hne.
  cbn [handle_messages].
  destruct (IH (handle_message e upd w).2 uid Hrest) as [Hu Hs].
  destruct (others_untouched_by_message e upd w) as [Hu1 Hs1].
  split.
  - rewrite Hu. apply Hu1. intros Heq. apply Hne. symmetry. by apply str_inj.
  - rewrite Hs. apply Hs1. congruence.
Qed.

(** X7: message handling never removes or replaces a record: after any
    sequence of messages every record of the store is still there with
    the same user id, names, registration time and preferences, the same
    set of counters, and no counter lower than it was. *)
Theorem records_survive_messages l : forall w,
  records_kept w (handle_messages l w).
Proof.
  induction l as [| [e upd] rest IH]; intros w; [apply records_kept_refl |].
  cbn [handle_messages].
  eapply records_kept_trans; [apply records_kept_by_message | apply IH].
Qed.

(** *** No counter is ever missing *)


















(** *** The flows, request by request *)

Lemma requests_app evs1 evs2 :
  requests (evs1 ++ evs2) = (requests evs1 ++ requests evs2)%list.
Proof. unfold requests. apply omap_app. Qed.



















(** *** The menu *)








(** *** Registration by message *)

Lemma sync_user_to_backend_run e uid w u :
  users w !! Py.str uid = Some u ->
  exists r,
    sync_user_to_backend e uid w =
      (Ok r, World (users w) (sessions w) (reads w)
                   (trace w ++ [Http (PostUser (sync_payload uid u))])).
Proof.
  intros Hu. unfold sync_user_to_backend, get_user, get_users, bind, ret, emit.
  rewrite Hu. fold (sync_payload uid u). cbn.
  destruct (api_post_user e (sync_payload uid u)) as [code [] | | |]; cbn;
    [destruct (code =? 200) |..]; eauto.
Qed.


(** *** Requests and replies per message *)

Lemma silent_ret {A} (a : A) : silent (ret a).
Proof. intros w. exists []. by rewrite app_nil_r. Qed.

Lemma silent_raise {A} x : silent (@raise A x).
Proof. intros w. exists []. by rewrite app_nil_r. Qed.

Lemma silent_get_users : silent get_users.
Proof. intros w. exists []. by rewrite app_nil_r. Qed.

Lemma silent_put_users us : silent (put_users us).
Proof. intros w. exists []. cbn. by rewrite app_nil_r. Qed.

Lemma silent_datetime_now : silent datetime_now.
Proof. intros w. exists []. cbn. by rewrite app_nil_r. Qed.

Lemma silent_user_data_get uid key : silent (user_data_get uid key).
Proof. intros w. exists []. by rewrite app_nil_r. Qed.

Lemma silent_user_data_set uid key b : silent (user_data_set uid key b).
Proof. intros w. exists []. cbn. by rewrite app_nil_r. Qed.

Lemma silent_emit ev : is_http ev = false -> silent (emit ev).
Proof. intros Hev w. exists [ev]. split; [done |]. by destruct ev. Qed.

Lemma silent_bind {A B} (m : M A) (k : A -> M B) :
  silent m -> (forall a, silent (k a)) -> silent (bind m k).
Proof.
  intros Hm Hk w. unfold bind. destruct (Hm w) as (evs1 & Ht1 & Hr1).
  destruct (m w) as [[a | x] w1]; cbn in *; [| by exists evs1].
  destruct (Hk a w1) as (evs2 & Ht2 & Hr2).
  exists (evs1 ++ evs2)%list. rewrite Ht2, Ht1, app_assoc.
  split; [done |]. by rewrite requests_app, Hr1, Hr2.
Qed.

Ltac silent_step :=
  first
    [ apply silent_ret
    | apply silent_raise
    | apply silent_get_users
    | apply silent_put_users
    | apply silent_datetime_now
    | apply silent_user_data_get
    | apply silent_user_data_set
    | apply silent_emit; reflexivity
    | apply silent_bind; [| intros ?]
    | match goal with
      | |- silent (if ?b then _ else _) => destruct b
      | |- silent (match ?x with _ => _ end) => destruct x
      | |- silent (let '(_, _) := ?x in _) => destruct x
      end ].

Ltac silent_tac :=
  repeat first
    [ silent_step
    | progress cbv zeta
    | progress unfold save_users, reply_text, get_user, get_user_language,
        is_user_registered, register_user, update_user_language,
        update_user_activity, increment_stat, generate_pdf, send_pdf,
        handle_open_website, profile_command, help_command ].

Lemma one_request_silent {A} (m : M A) : silent m -> one_request m.
Proof.
  intros Hm w. destruct (Hm w) as (evs & Ht & Hr).
  exists evs. split; [done |]. rewrite Hr. cbn. lia.
Qed.

Lemma one_request_emit ev : one_request (emit ev).
Proof. intros w. exists [ev]. split; [done |]. destruct ev; cbn; lia. Qed.

Lemma one_request_bind_l {A B} (m : M A) (k : A -> M B) :
  one_request m -> (forall a, silent (k a)) -> one_request (bind m k).
Proof.
  intros Hm Hk w. unfold bind. destruct (Hm w) as (evs1 & Ht1 & Hr1).
  destruct (m w) as [[a | x] w1]; cbn in *; [| by exists evs1].
  destruct (Hk a w1) as (evs2 & Ht2 & Hr2).
  exists (evs1 ++ evs2)%list. rewrite Ht2, Ht1, app_assoc.
  split; [done |]. by rewrite requests_app, Hr2, app_nil_r.
Qed.

Lemma one_request_bind_r {A B} (m : M A) (k : A -> M B) :
  silent m -> (forall a, one_request (k a)) -> one_request (bind m k).
Proof.
  intros Hm Hk w. unfold bind. destruct (Hm w) as (evs1 & Ht1 & Hr1).
  destruct (m w) as [[a | x] w1]; cbn in *.
  - destruct (Hk a w1) as (evs2 & Ht2 & Hr2).
    exists (evs1 ++ evs2)%list. rewrite Ht2, Ht1, app_assoc.
    split; [done |]. by rewrite requests_app, Hr1.
  - exists evs1. split; [done |]. rewrite Hr1. cbn. lia.
Qed.

Ltac one_request_tac :=
  cbv zeta;
  first
    [ solve [apply one_request_silent; silent_tac]
    | apply one_request_emit
    | match goal with
      | |- one_request (bind _ _) =>
          first
            [ apply one_request_bind_r;
                [solve [silent_tac] | intros ?; one_request_tac]
            | apply one_request_bind_l;
                [one_request_tac | intros ?; solve [silent_tac]] ]
      | |- one_request (if ?b then _ else _) => destruct b; one_request_tac
      | |- one_request (match ?x with _ => _ end) =>
          destruct x; one_request_tac
      | |- one_request (let '(_, _) := ?x in _) => destruct x; one_request_tac
      end
    | progress unfold send_message_to_website, sync_user_to_backend,
        create_hashtag, delete_hashtag, get_hashtags, get_words_by_category,
        register_command, handle_tagged_note, handle_create_hashtag,
        handle_delete_hashtag, handle_import_list, handle_language_selection,
        menu_dispatch, get_user;
      one_request_tac ].

(** X17: handling one message adds events to the trace and never more
    than one request to the remote service among them, on every path and
    whatever the service answers. *)
Theorem one_request_per_message e upd w :
  exists evs,
    trace (handle_message e upd w).2 = (trace w ++ evs)%list
    /\ (length (requests evs) <= 1)%nat.
Proof.
  revert w. change (one_request (handle_message e upd)).
  unfold handle_message. one_request_tac.
Qed.



















(** *** The rendered document *)






(** *** The commands *)

(** X20: for a sender who is not registered, [/start], [/help] and
    [/profile] only answer: each sends one reply without a keyboard and
    leaves the store, the sessions and the clock as they were; no
    activity is recorded and nothing is saved. *)
Theorem commands_turn_unregistered_away upd w :
  users w !! Py.str (eff_id upd) = None ->
  turned_away (eff_id upd) w (start upd w)
  /\ turned_away (eff_id upd) w (help_command upd w)
  /\ turned_away (eff_id upd) w (profile_command upd w).
Proof.
  intros Habs. unfold turned_away, start, help_command, profile_command.
  rewrite !(bind_ok _ _ _ _ _ (is_user_registered_absent _ _ Habs)).
  cbn [negb].
  rewrite (bind_ok _ _ _ _ _ (get_user_language_absent _ _ Habs)).
  unfold reply_text, emit. repeat split; eexists; reflexivity.
Qed.

(** X21: for a registered sender [/start] and [/help] are one and the
    same: equal outcome and equal final state.  With the
    [total_messages] counter present the activity is recorded once and
    the help text is sent with the keyboard in the sender's language;
    with the counter missing both raise [KeyError] before anything is
    sent. *)
Theorem start_is_help_when_registered upd w u :
  users w !! Py.str (eff_id upd) = Some u ->
  start upd w = help_command upd w
  /\ (forall n,
        stats u !! "total_messages" = Some n ->
        exists w',
          start upd w = (Ok tt, w')
          /\ users w' = users (after_activity (eff_id upd) u n w)
          /\ sessions w' = sessions w
          /\ trace w' =
               (trace (after_activity (eff_id upd) u n w)
                ++ [ReplyText (eff_id upd) (help_text (language u))
                      (Some (get_main_keyboard (language u)))])%list)
  /\ (stats u !! "total_messages" = None ->
      exists w',
        start upd w = (Raise (KeyError "total_messages"), w')
        /\ trace w' = trace w).
Proof.
  intros Hu. split.
  { unfold start, help_command, help_text.
    by rewrite !(bind_ok _ _ _ _ _ (is_user_registered_present _ _ _ Hu)). }
  unfold start.
  rewrite (bind_ok _ _ _ _ _ (is_user_registered_present _ _ _ Hu)).
  cbn [negb].
  rewrite (bind_ok _ _ _ _ _ (get_user_language_present _ _ _ Hu)).
  split.
  - intros n Hn.
    rewrite (bind_ok _ _ _ _ _ (update_user_activity_present _ _ _ _ Hu Hn)).
    cbn zeta. unfold reply_text, emit, after_activity, help_text.
    cbn [users sessions reads trace].
    eexists. split; [reflexivity |]. by cbn [users sessions trace].
  - intros Hn. unfold update_user_activity, bind, get_users, datetime_now,
      put_users, raise. rewrite Hu. cbn. rewrite Hn.
    eexists. split; [reflexivity |]. reflexivity.
Qed.

(** X22: [/register] sent a second time changes nothing: the first call
    registers the sender, the second one, whatever names it carries and
    whatever the remote service would answer, sends the
    already-registered reply and makes no request, saves nothing and
    keeps the record of the first call. *)
Theorem register_command_twice e e' upd upd' w :
  users w !! Py.str (eff_id upd) = None ->
  eff_id upd' = eff_id upd ->
  exists w1,
    register_command e upd w = (Ok tt, w1)
    /\ users w1 !! Py.str (eff_id upd) = Some (registered_record upd w)
    /\ register_command e' upd' w1 =
         (Ok tt,
          World (users w1) (sessions w1) (reads w1)
                (trace w1
                 ++ [ReplyText (eff_id upd)
                       (get_text "user_already_registered" "en")
                       (Some (get_main_keyboard "en"))])).
Proof.
  intros Habs Hid. unfold register_command at 1.
  rewrite (bind_ok _ _ _ _ _ (is_user_registered_absent _ _ Habs)).
  rewrite (bind_ok _ _ _ _ _ (register_user_absent _ _ _ _ _ Habs)).
  cbn zeta. set (w1 := World _ _ _ _).
  assert (Hu1 : users w1 !! Py.str (eff_id upd)
                = Some (User (eff_id upd) (eff_username upd)
                             (Some (eff_first_name upd)) (eff_last_name upd)
                             "en" (clock (reads w)) (clock (S (reads w)))
                             initial_stats initial_preferences))
    by apply lookup_insert_eq.
  rewrite (bind_ok _ _ _ _ _ (update_user_language_present _ _ _ _ Hu1)).
  cbn zeta. set (w2 := World _ _ _ _).
  assert (Hu2 : users w2 !! Py.str (eff_id upd) = Some (registered_record upd w))
    by apply lookup_insert_eq.
  destruct (sync_user_to_backend_run e _ w2 _ Hu2) as [[ok message] Hrun].
  rewrite (bind_ok _ _ _ _ _ Hrun).
  unfold reply_text, emit. cbn [users sessions reads trace].
  eexists. split; [reflexivity |].
  set (w3 := World _ _ _ _).
  assert (Hu3 : users w3 !! Py.str (eff_id upd) = Some (registered_record upd w))
    by exact Hu2.
  split; [exact Hu3 |].
  unfold register_command. rewrite Hid.
  rewrite (bind_ok _ _ _ _ _ (is_user_registered_present _ _ _ Hu3)).
  rewrite (bind_ok _ _ _ _ _ (get_user_language_present _ _ _ Hu3)).
  reflexivity.
Qed.

End Bot.

(** ** The theorems on the sample values *)

Lemma register_user_twice_witness :
  exists w1,
    register_user sample_clock 7 (Some "ann") (Some "Ann") None empty_world
      = (Ok true, w1)
    /\ size (users w1) = 1%nat
    /\ register_user sample_clock 7 (Some "bob") None None w1 = (Ok false, w1).
Proof.
  destruct (register_user_twice sample_clock 7 (Some "ann") (Some "Ann") None
              (Some "bob") None None empty_world)
    as (r & w1 & H1 & H2 & H3 & H4 & H5 & H6); [reflexivity |].
  exists w1. split; [exact H1 |]. split; [exact H3 | exact H6].
Defined.

Lemma increment_stat_counts_witness :
  exists w2 u2,
    increment_stats
      [(7, "words_saved"); (8, "words_saved"); (7, "bogus"); (7, "words_saved")]
      (sample_world ∅) = (Ok tt, w2)
    /\ users w2 !! Py.str 7 = Some u2
    /\ stats u2 !! "words_saved" = Some 2.
Proof.
  destruct (increment_stat_counts
              [(7, "words_saved"); (8, "words_saved"); (7, "bogus");
               (7, "words_saved")]
              (sample_world ∅) 7 sample_user "words_saved")
    as (n & Hn & _ & _ & _ & w2 & u2 & Hrun & Hu2 & Hc).
  - reflexivity.
  - apply wf_user_initial.
  - repeat constructor.
  - exists w2, u2. split; [exact Hrun |]. split; [exact Hu2 |].
    vm_compute in Hn. injection Hn as <-. exact Hc.
Defined.





Lemma pending_flow_consumes_message_witness :
  exists w',
    handle_message sample_clock sample_text sample_has ascii_lower ascii_upper
      sample_strftime sample_env (sample_update "en:help")
      (sample_world (pending "awaiting_hashtag_delete")) = (Ok tt, w')
    /\ state_of w' 7 = Some Idle.
Proof.
  destruct (pending_flow_consumes_message sample_clock sample_text sample_has
              ascii_lower ascii_upper sample_strftime sample_env
              (sample_update "en:help")
              (sample_world (pending "awaiting_hashtag_delete")) sample_user 0
              AwaitingHashtagDelete)
    as (w' & evs & Hrun & _ & Hst & _).
  - reflexivity.
  - reflexivity.
  - reflexivity.
  - discriminate.
  - exists w'. split; [exact Hrun | exact Hst].
Defined.






Lemma delete_user_unregisters_witness :
  exists w',
    delete_user 7 (sample_world ∅) = (Ok true, w')
    /\ is_user_registered 7 w' = (Ok false, w')
    /\ delete_user 7 w' = (Ok false, w').
Proof.
  destruct (delete_user_unregisters sample_clock 7 (sample_world ∅)
              sample_user (Some "ann") None None)
    as (w' & H1 & _ & _ & _ & H5 & H6 & _); [reflexivity |].
  exists w'. split; [exact H1 |]. split; [exact H5 | exact H6].
Defined.

Lemma register_then_delete_restores_witness :
  exists w1 w2,
    register_user sample_clock 9 None (Some "Bob") None (sample_world ∅)
      = (Ok true, w1)
    /\ delete_user 9 w1 = (Ok true, w2)
    /\ users w2 = users (sample_world ∅).
Proof.
  destruct (register_then_delete_restores sample_clock 9 None (Some "Bob")
              None (sample_world ∅))
    as (w1 & w2 & H1 & _ & H3 & H4 & _); [reflexivity |].
  exists w1, w2. split; [exact H1 |]. split; [exact H3 | exact H4].
Defined.

Lemma preference_written_is_read_witness :
  exists w' u',
    update_user_preference 7 "auto_save" false (sample_world ∅) = (Ok tt, w')
    /\ users w' !! Py.str 7 = Some u'
    /\ preferences u' !! "auto_save" = Some false.
Proof.
  destruct (preference_written_is_read 7 "auto_save" false (sample_world ∅)
              sample_user)
    as (w' & u' & H1 & H2 & H3 & _); [reflexivity |].
  exists w', u'. split; [exact H1 |]. split; [exact H2 | exact H3].
Defined.

Lemma profile_days_registered_witness :
  exists w' p,
    get_user_profile sample_clock 7 (sample_world ∅) = (Ok (Some p), w')
    /\ p_stats p = initial_stats
    /\ 0 <= p_days_registered p.
Proof.
  destruct (profile_days_registered sample_clock 7 (sample_world ∅)
              sample_user)
    as (w' & p & H1 & _ & _ & H4 & _ & _ & _ & H8 & _); [reflexivity |].
  exists w', p. split; [exact H1 |]. split; [exact H4 |].
  apply H8. vm_compute. discriminate.
Defined.

Lemma other_senders_leave_user_alone_witness :
  let l := [(sample_env, Update 9 None "Bob" None "en:register");
            (sample_env, Update 9 None "Bob" None "hello #words")] in
  let w' := handle_messages sample_clock sample_text sample_has ascii_lower
              ascii_upper sample_strftime l (sample_world ∅) in
  users w' !! Py.str 7 = users (sample_world ∅) !! Py.str 7
  /\ sessions w' !! 7 = sessions (sample_world ∅) !! 7.
Proof.
  cbv zeta.
  apply (other_senders_leave_user_alone sample_clock sample_text sample_has
           ascii_lower ascii_upper sample_strftime).
  constructor; [vm_compute; discriminate |].
  constructor; [vm_compute; discriminate | constructor].
Defined.











Lemma commands_turn_unregistered_away_witness :
  let upd := Update 9 None "Bob" None "/profile" in
  turned_away 9 (sample_world ∅) (start sample_clock sample_text upd (sample_world ∅))
  /\ turned_away 9 (sample_world ∅)
       (profile_command sample_clock sample_text ascii_upper sample_strftime
          upd (sample_world ∅)).
Proof.
  cbv zeta.
  destruct (commands_turn_unregistered_away sample_clock sample_text
              ascii_upper sample_strftime
              (Update 9 None "Bob" None "/profile") (sample_world ∅))
    as (Hs & _ & Hp); [reflexivity |].
  split; [exact Hs | exact Hp].
Defined.

Lemma start_is_help_when_registered_witness :
  start sample_clock sample_text (sample_update "/start") (sample_world ∅)
  = help_command sample_clock sample_text (sample_update "/start")
      (sample_world ∅).
Proof.
  destruct (start_is_help_when_registered sample_clock sample_text
              (sample_update "/start") (sample_world ∅) sample_user)
    as (Heq & _); [reflexivity |].
  exact Heq.
Defined.

Lemma register_command_twice_witness :
  exists w1 w2,
    register_command sample_clock sample_text sample_has sample_env
      (Update 9 (Some "bob") "Bob" None "/register") (sample_world ∅)
      = (Ok tt, w1)
    /\ register_command sample_clock sample_text sample_has sample_env
         (Update 9 (Some "rob") "Rob" None "/register") w1 = (Ok tt, w2)
    /\ users w2 = users w1.
Proof.
  destruct (register_command_twice sample_clock sample_text sample_has
              sample_env sample_env
              (Update 9 (Some "bob") "Bob" None "/register")
              (Update 9 (Some "rob") "Rob" None "/register") (sample_world ∅))
    as (w1 & H1 & _ & H2).
  - reflexivity.
  - reflexivity.
  - eexists w1, _. split; [exact H1 |]. split; [exact H2 | reflexivity].
Defined.

Lemma sessions_stay_single_witness :
  is_Some
    (state_of
       (handle_messages sample_clock sample_text sample_has ascii_lower
          ascii_upper sample_strftime
          [(sample_env, sample_update "en:register");
           (sample_env, sample_update "en:create_hashtag");
           (sample_env, sample_update "en:delete_hashtag")]
          empty_world)
       7).
Proof.
  apply (sessions_stay_single sample_clock sample_text sample_has ascii_lower
           ascii_upper sample_strftime).
  reflexivity.
Defined.

(** The numbering of a rendered list keeps the positions of the items: an
    item left without text is skipped and its number with it, while the
    footer counts every item. *)
Example pdf_story_skips_a_number :
  let words := [Message "hello #words" (Some "salom") (Some "#words");
                Message "📚 #words" None (Some "#words");
                Message "bye #words" None (Some "#words")] in
  word_paragraphs (pdf_story words "#words" "2024-01-01 10:00")
    = ["1. hello"; "3. bye"]
  /\ last (pdf_story words "#words" "2024-01-01 10:00")
     = Some (Paragraph "Generated: 2024-01-01 10:00 | Words: 3" FooterStyle).
Proof. cbv zeta. split; vm_compute; reflexivity. Qed.

(** ** The built-ins on sample texts *)

Example strip_ex : Py.strip "  #words hello  " = "#words hello".
Proof. reflexivity. Qed.

Example split_ex : Py.split " a  #b	c " = ["a"; "#b"; "c"].
Proof. reflexivity. Qed.

Example split_space_1_ex :
  Py.split_space_1 "#new my  words" = ["#new"; "my  words"]
  /\ Py.split_space_1 "" = [""]
  /\ Py.split_space_1 "one" = ["one"].
Proof. repeat split. Qed.
